(** * OpenReview scripts of the SEA workshop: a shallow embedding

    The three scripts under [openreview_scripts/] fetch notes from OpenReview
    and post-process them with string tests, a score regex, a per-forum
    average and a set union.  This file embeds that post-processing as Rocq
    functions and proves what the specification says about it.

    Conventions of the embedding.
    - A Python [str] is a [string] of ASCII characters.  On ASCII text
      [str.lower], [str.strip], [str.isspace] and the regex classes [\s],
      [[0-9]] and [.] are exactly the functions defined here.  Text outside
      ASCII stands as its UTF-8 bytes and is only looked at where a
      statement says so (a full-width digit, which [\d] matches and [[0-9]]
      does not).
    - A Python [float] is the rational number it stands for, kept in lowest
      terms ([Qred]) so that [=] is numeric equality.  Arithmetic on floats
      is exact here, where the interpreter rounds to a double, overflows to
      [inf] or raises [OverflowError]: a statement that names a float value
      is made for numbers a double holds exactly ([binary64_exact]), and the
      others say which scores are read, not what their rounded sum is.
    - The notes returned by the OpenReview client are plain records; the
      client itself appears only as the list of notes it returned. *)

From Stdlib Require Import ZArith QArith String Ascii List Lia Bool.
From stdpp Require Import base list strings gmap sets sorting.

Local Open Scope string_scope.
Local Open Scope Z_scope.

(** ** Python string primitives *)
Module PyString.

Definition code (c : ascii) : N := N_of_ascii c.

(** [c.isspace()] / regex [\s]: TAB, LF, VT, FF, CR, FS, GS, RS, US, SPACE. *)
Definition is_space (c : ascii) : bool :=
  let n := code c in
  ((9 <=? n) && (n <=? 13) || (28 <=? n) && (n <=? 32))%N.

(** regex [[0-9]]. *)
Definition is_digit (c : ascii) : bool :=
  let n := code c in ((48 <=? n) && (n <=? 57))%N.

Definition lower_char (c : ascii) : ascii :=
  let n := code c in
  if ((65 <=? n) && (n <=? 90))%N then ascii_of_N (n + 32) else c.

(** [s.lower()] *)
Fixpoint lower (s : string) : string :=
  match s with
  | EmptyString => EmptyString
  | String c s' => String (lower_char c) (lower s')
  end.

(** [s.startswith(p)] *)
Fixpoint startswith (p s : string) : bool :=
  match p, s with
  | EmptyString, _ => true
  | String a p', String b s' => if Ascii.eqb a b then startswith p' s' else false
  | String _ _, EmptyString => false
  end.

(** [sub in s] *)
Fixpoint contains (sub s : string) : bool :=
  startswith sub s ||
  match s with
  | EmptyString => false
  | String _ s' => contains sub s'
  end.

(** [s.lstrip()] *)
Fixpoint lstrip (s : string) : string :=
  match s with
  | String c s' => if is_space c then lstrip s' else s
  | EmptyString => EmptyString
  end.

(** [s.rstrip()]: a character is dropped when it is white space and so is
    everything after it. *)
Fixpoint rstrip (s : string) : string :=
  match s with
  | EmptyString => EmptyString
  | String c s' =>
      match rstrip s' with
      | EmptyString => if is_space c then EmptyString else String c EmptyString
      | r => String c r
      end
  end.

(** [s.strip()] *)
Definition strip (s : string) : string := rstrip (lstrip s).

(** [s.replace(" ", "")] *)
Fixpoint remove_spaces (s : string) : string :=
  match s with
  | EmptyString => EmptyString
  | String c s' =>
      if Ascii.eqb c " " then remove_spaces s' else String c (remove_spaces s')
  end.

(** [all(p(c) for c in s)] *)
Fixpoint all_chars (p : ascii -> bool) (s : string) : bool :=
  match s with
  | EmptyString => true
  | String c s' => p c && all_chars p s'
  end.

(** The first character of [s] satisfies [p] (false on the empty string). *)
Definition head_is (p : ascii -> bool) (s : string) : bool :=
  match s with
  | EmptyString => false
  | String c _ => p c
  end.

(** The last character of [s] satisfies [p] (false on the empty string). *)
Fixpoint last_is (p : ascii -> bool) (s : string) : bool :=
  match s with
  | EmptyString => false
  | String c EmptyString => p c
  | String _ s' => last_is p s'
  end.

(** [s] neither starts nor ends with white space. *)
Definition is_trimmed (s : string) : bool :=
  negb (head_is is_space s) && negb (last_is is_space s).

(** [sub] occurs in [s], with exact casing. *)
Definition occurs (sub s : string) : Prop :=
  exists pre post, s = pre ++ sub ++ post.

(** [sub] occurs in [s] in some casing. *)
Definition occurs_nocase (sub s : string) : Prop :=
  exists pre mid post, s = pre ++ mid ++ post /\ lower mid = lower sub.

(** [s] starts with [p] in some casing. *)
Definition starts_nocase (p s : string) : Prop :=
  exists h t, s = h ++ t /\ lower h = lower p.

End PyString.

(** ** extract_accepted_papers.py *)
Module AcceptedPapers.
Import PyString.

(** The presentation type computed in [main] from the venue field
    ([venue_lower = venue_field.lower()] and the if/elif/else below it). *)
Definition presentation_type (venue_field : string) : string :=
  let venue_lower := lower venue_field in
  if contains "oral" venue_lower then "Oral"
  else if contains "poster" venue_lower then "Poster"
  else "".

End AcceptedPapers.

(** ** make_decision.py *)
Module MakeDecision.
Import PyString.

(** *** Notes and their content *)

#[local] Set Warnings "-register-all".

(** A value of a note's [content] mapping, as decoded from JSON. *)
Inductive PyValue :=
| PyNone
| PyBool (b : bool)
| PyInt (z : Z)
| PyFloat (q : Q)
| PyStr (s : string)
| PyDict (items : list (string * PyValue))
| PyList (items : list PyValue).

(** A [dict] in insertion order (the order [content.items()] yields). *)
Definition dict := list (string * PyValue).

(** [d.get(k)]; [k in d] is [is_Some (dict_get d k)]. *)
Fixpoint dict_get (d : dict) (k : string) : option PyValue :=
  match d with
  | [] => None
  | (k', v) :: d' => if String.eqb k' k then Some v else dict_get d' k
  end.

(** Truth value of [v] in a condition ([if v], [v or ...]). *)
Definition truthy (v : PyValue) : bool :=
  match v with
  | PyNone => false
  | PyBool b => b
  | PyInt z => negb (z =? 0)%Z
  | PyFloat q => negb (Qeq_bool q 0)
  | PyStr s => negb (String.eqb s "")
  | PyDict [] => false
  | PyDict (_ :: _) => true
  | PyList [] => false
  | PyList (_ :: _) => true
  end.

(** The two interpreter built-ins the scripts call on arbitrary values and
    that are left abstract: [str(v)] for a [v] that is not a [str], and
    [int(v)] ([None] when it raises). *)
Class Builtins := {
  py_repr : PyValue -> string;
  py_int : PyValue -> option Z
}.

(** [str(v)] *)
Definition py_str `{Builtins} (v : PyValue) : string :=
  match v with
  | PyStr s => s
  | _ => py_repr v
  end.

(** The attributes of an [openreview.api.Note] the script reads. *)
Record Note := {
  note_id : string;
  note_forum : option string;
  note_number : option Z;
  note_invitations : option (list string);
  note_cdate : option Z;
  note_content : option dict
}.

(** [n.content or {}] *)
Definition content_or_empty (n : Note) : dict :=
  match note_content n with
  | Some d => d
  | None => []
  end.

(** [n.invitations[0] if n.invitations else ""] *)
Definition first_invitation (n : Note) : string :=
  match note_invitations n with
  | Some (inv :: _) => inv
  | _ => ""
  end.

(** The client, as far as [iter_notes(client, forum=...)] goes: the replies
    of each forum. *)
Definition Client := string -> list Note.

(** *** parse_numeric_score *)

(** The longest prefix of [[0-9]] characters and what follows it. *)
Fixpoint span_digits (s : string) : string * string :=
  match s with
  | String c s' =>
      if is_digit c
      then let (d, r) := span_digits s' in (String c d, r)
      else ("", s)
  | EmptyString => ("", "")
  end.

(** [re.match(r"\s*([0-9]+(\.[0-9]+)?)", s)]: when it matches, the digits
    of group 1 before and after the point (no digits after it when the
    optional group does not take part). *)
Definition match_score (s : string) : option (string * string) :=
  let (i, rest) := span_digits (lstrip s) in
  match i with
  | EmptyString => None
  | String _ _ =>
      match rest with
      | String "." r => let (f, _) := span_digits r in Some (i, f)
      | _ => Some (i, "")
      end
  end.

Definition digit_val (c : ascii) : Z := Z.of_N (code c) - 48.

Fixpoint digits_to_Z (acc : Z) (s : string) : Z :=
  match s with
  | EmptyString => acc
  | String c s' => digits_to_Z (10 * acc + digit_val c) s'
  end.

(** [float(m.group(1))] for integer digits [i] and fraction digits [f]: the
    decimal number the token writes, which is the float when a double holds
    it exactly (the interpreter rounds it otherwise). *)
Definition float_of_token (tok : string * string) : Q :=
  let (i, f) := tok in
  Qred (digits_to_Z 0 (i ++ f) # Z.to_pos (10 ^ Z.of_nat (String.length f))).

(** The text of a numeric token with integer digits [i] and fraction digits
    [f]: [i], or [i.f] when there is a fraction. *)
Definition token_text (i f : string) : string :=
  match f with
  | EmptyString => i
  | String _ _ => i ++ "." ++ f
  end.

(** What the pattern [^\s*(\d+(\.\d+)?)] matches at the start of [s]: white
    space, then the numeric token [i] or [i.f], each part as long as it can
    be. *)
Definition leading_token (s i f : string) : Prop :=
  exists ws rest,
    s = ws ++ token_text i f ++ rest /\
    all_chars is_space ws = true /\
    i <> "" /\ all_chars is_digit i = true /\ all_chars is_digit f = true /\
    head_is is_digit rest = false /\
    (f = "" -> forall r, rest = String "." r -> head_is is_digit r = false).


Section WithBuiltins.
Context `{Builtins}.

(** [float(value)] of a number is taken to be the number itself, which it
    is when a double holds it exactly. *)
Definition parse_numeric_score (value : PyValue) : option Q :=
  match value with
  | PyNone => None
  | PyBool b => Some (if b then 1 else 0)%Q
  | PyInt z => Some (inject_Z z)
  | PyFloat q => Some (Qred q)
  | _ =>
      match match_score (py_str value) with
      | Some tok => Some (float_of_token tok)
      | None => None
      end
  end.

(** *** get_reviews_for_forum *)

Definition is_review (n : Note) : bool :=
  let inv := lower (first_invitation n) in
  contains "review" inv && (contains "official" inv || contains "review" inv).

Definition get_reviews_for_forum (client : Client) (forum_id : string)
  : list Note :=
  let replies := client forum_id in
  List.filter is_review replies.

(** *** average_review_score *)

Definition score_fields : list string :=
  [ "rating"; "overall_assessment"; "overall recommendation";
    "overall_recommendation"; "recommendation"; "overall"; "overall_score" ].

(** [k.replace(" ", "").lower()] *)
Definition norm_key (k : string) : string := lower (remove_spaces k).

(** The [else] branch: the value of the first item whose key matches [key]
    up to case and spaces. *)
Fixpoint first_insensitive (d : dict) (key : string) : option PyValue :=
  match d with
  | [] => None
  | (k, v) :: d' =>
      if String.eqb (norm_key k) (norm_key key) then Some v
      else first_insensitive d' key
  end.

(** The list [candidates] built for one [key]. *)
Definition candidates (content : dict) (key : string) : list PyValue :=
  match dict_get content key with
  | Some v => [v]
  | None =>
      match first_insensitive content key with
      | Some v => [v]
      | None => []
      end
  end.

(** [val if not isinstance(val, dict) else val.get("value")] *)
Definition unwrap (val : PyValue) : PyValue :=
  match val with
  | PyDict d => default PyNone (dict_get d "value")
  | _ => val
  end.

(** [for val in candidates: ...]: appends the first parsed score to
    [scores] and stops. *)
Fixpoint try_candidates (cands : list PyValue) (scores : list Q) : list Q :=
  match cands with
  | [] => scores
  | val :: cands' =>
      match parse_numeric_score (unwrap val) with
      | Some sc => scores ++ [sc]
      | None => try_candidates cands' scores
      end
  end.

(** [for key in score_fields: ...] for one review.  The loop is left by
    [if scores and scores[-1] is not None: break]; [scores] only ever holds
    floats, so the test is that the list shared by all reviews is not
    empty. *)
Fixpoint scan_fields (content : dict) (keys : list string) (scores : list Q)
  : list Q :=
  match keys with
  | [] => scores
  | key :: keys' =>
      let scores' := try_candidates (candidates content key) scores in
      match scores' with
      | [] => scan_fields content keys' scores'
      | _ :: _ => scores'
      end
  end.

(** The list [scores] after the loop over [review_notes]. *)
Definition collect_scores (review_notes : list Note) : list Q :=
  fold_left (fun scores r => scan_fields (content_or_empty r) score_fields scores)
            review_notes [].

(** [sum(scores)] *)
Definition py_sum (scores : list Q) : Q := fold_left Qplus scores 0%Q.

(** [sum(scores) / len(scores)], computed exactly (the interpreter rounds
    each sum and the quotient to a double). *)
Definition mean (scores : list Q) : Q :=
  Qred (py_sum scores / inject_Z (Z.of_nat (List.length scores))).

Definition average_review_score (review_notes : list Note) : option Q :=
  match collect_scores review_notes with
  | [] => None
  | scores => Some (mean scores)
  end.

(** *** get_decision_for_forum *)

(** The filter of the list comprehension: the first invitation names a
    meta-review. *)
Definition is_meta_candidate (n : Note) : bool :=
  match note_invitations n with
  | Some (inv :: _) => contains "Meta_Review" inv || contains "Meta-Review" inv
  | _ => false
  end.

(** The sort key [x.cdate or 0]. *)
Definition cdate_key (x : Note) : Z :=
  match note_cdate x with
  | Some c => c
  | None => 0
  end.

(** [sorted(l, key=cdate_key, reverse=True)]: Python's sort is stable, also
    when reversed, so the result is the one stable arrangement by
    descending key; insertion from the right computes it. *)
Fixpoint insert_desc (x : Note) (l : list Note) : list Note :=
  match l with
  | [] => [x]
  | y :: l' =>
      if cdate_key x <? cdate_key y then y :: insert_desc x l' else x :: l
  end.

Fixpoint sorted_desc (l : list Note) : list Note :=
  match l with
  | [] => []
  | x :: l' => insert_desc x (sorted_desc l')
  end.

Definition decision_fields : list string :=
  [ "recommendation"; "final_recommendation"; "final decision"; "decision" ].

(** [if isinstance(val, dict): val = val.get("value", "")] *)
Definition decision_value (val : PyValue) : PyValue :=
  match val with
  | PyDict d => default (PyStr "") (dict_get d "value")
  | _ => val
  end.

(** [return str(val).strip() if val else None] *)
Definition decision_text (val : PyValue) : option string :=
  if truthy val then Some (strip (py_str val)) else None.

(** [for key in [...]: if key in content: ... return ...] and the final
    [return None]. *)
Fixpoint decision_of_content (content : dict) (keys : list string)
  : option string :=
  match keys with
  | [] => None
  | key :: keys' =>
      match dict_get content key with
      | Some val => decision_text (decision_value val)
      | None => decision_of_content content keys'
      end
  end.

Definition get_decision_for_forum (client : Client) (forum_id : string)
  : option string :=
  let meta_candidates := List.filter is_meta_candidate (client forum_id) in
  match meta_candidates with
  | [] => None
  | _ :: _ =>
      match sorted_desc meta_candidates with
      | meta :: _ => decision_of_content (content_or_empty meta) decision_fields
      | [] => None
      end
  end.

(** *** get_paper_number *)

Fixpoint number_of_content (content : dict) (keys : list string) : option Z :=
  match keys with
  | [] => None
  | k :: keys' =>
      let v := default PyNone (dict_get content k) in
      let v := match v with
               | PyDict d => default PyNone (dict_get d "value")
               | _ => v
               end in
      match v with
      | PyNone => number_of_content content keys'
      | _ =>
          match py_int v with
          | Some n => Some n
          | None => number_of_content content keys'
          end
      end
  end.

Definition get_paper_number (note : Note) : option Z :=
  match note_number note with
  | Some n => Some n
  | None =>
      number_of_content (content_or_empty note)
                        ["number"; "paper_number"; "submission_number"]
  end.

(** *** main *)

(** [a < b] on floats. *)
Definition Qltb (a b : Q) : bool := negb (Qle_bool b a).

(** The flag test of [main]:
    [accepted = decision_str.lower().startswith("accept")] and
    [accepted and (avg_score is not None) and (avg_score < 4.0)]. *)
Definition classify_low_score_accept (decision_str : string)
    (avg_score : option Q) : bool :=
  let accepted := startswith "accept" (lower decision_str) in
  accepted &&
  match avg_score with
  | Some avg => Qltb avg 4
  | None => false
  end.

(** A row of [sea_decisions.csv]. *)
Record Row := {
  paper_number : Z;
  decision : string;
  comment : string
}.

(** [paper_no] of one iteration: [get_paper_number(sub)], and when that is
    [None], [sub.number] if it is set and [-1] otherwise. *)
Definition paper_no_of (sub : Note) : Z :=
  match get_paper_number sub with
  | Some n => n
  | None =>
      match note_number sub with
      | Some n => n
      | None => -1
      end
  end.

(** One iteration of [for sub in submissions]: the row appended to [rows]
    and whether [paper_no] is appended to [flagged_low_score_accept]. *)
Definition process_submission (client : Client) (sub : Note) : Row * bool :=
  let forum :=
    match note_forum sub with
    | Some f => if String.eqb f "" then note_id sub else f
    | None => note_id sub
    end in
  let paper_no := paper_no_of sub in
  let decision := get_decision_for_forum client forum in
  let decision_str := strip (default "" decision) in
  let reviews := get_reviews_for_forum client forum in
  let avg_score := average_review_score reviews in
  ({| paper_number := paper_no; decision := decision_str; comment := "" |},
   classify_low_score_accept decision_str avg_score).

(** The lists [rows] and [flagged_low_score_accept] after the loop.
    ([DataFrame(rows).sort_values] then reorders the rows; it adds and drops
    none.) *)
Definition main_loop (client : Client) (submissions : list Note)
  : list Row * list Z :=
  fold_left
    (fun (acc : list Row * list Z) sub =>
       let '(rows, flagged) := acc in
       let '(row, flag) := process_submission client sub in
       ((rows ++ [row])%list,
        if flag then (flagged ++ [paper_number row])%list else flagged))
    submissions ([], []).

(** [sorted(set(flagged_low_score_accept))], the column written to
    [sea_flagged_low_score_accept.csv]. *)
Definition flagged_column (flagged : list Z) : list Z :=
  merge_sort Z.le (elements (list_to_set flagged : gset Z)).

(** *** The operations as the specification words them *)

(** The value of one candidate field: the exact key first, then a key equal
    up to case and white space; the [{value: ...}] form unwrapped and the
    numeric prefix parsed. *)
Definition spec_field_score (content : dict) (key : string) : option Q :=
  match candidates content key with
  | val :: _ => parse_numeric_score (unwrap val)
  | [] => None
  end.

(** [extract_score] of the specification: the candidate fields in priority
    order, the first one that parses gives the score. *)
Fixpoint spec_extract_score (content : dict) (keys : list string) : option Q :=
  match keys with
  | [] => None
  | key :: keys' =>
      match spec_field_score content key with
      | Some sc => Some sc
      | None => spec_extract_score content keys'
      end
  end.

(** [average_score] of the specification: the mean of the scores of the
    reviews that have one, [None] when no review has one. *)
Definition spec_average_score (reviews : list Note) : option Q :=
  match omap (fun r => spec_extract_score (content_or_empty r) score_fields)
             reviews with
  | [] => None
  | scores => Some (mean scores)
  end.

(** The decision text sought as the specification says, with the strategy
    of the scores: per candidate field the exact key first, then a key equal
    up to case and white space. *)
Fixpoint spec_decision_text (content : dict) (keys : list string)
  : option string :=
  match keys with
  | [] => None
  | key :: keys' =>
      match candidates content key with
      | val :: _ => decision_text (decision_value val)
      | [] => spec_decision_text content keys'
      end
  end.

(** What the loop of [average_review_score] collects, read off
    [scan_fields]: every field is tried for a review as long as no score has
    been collected; from then on only the first field is. *)
Fixpoint collected (started : bool) (reviews : list Note) : list Q :=
  match reviews with
  | [] => []
  | r :: reviews' =>
      let content := content_or_empty r in
      if started then
        match spec_field_score content "rating" with
        | Some sc => sc :: collected true reviews'
        | None => collected true reviews'
        end
      else
        match spec_extract_score content score_fields with
        | Some sc => sc :: collected true reviews'
        | None => collected false reviews'
        end
  end.

End WithBuiltins.

(** An instance of the built-ins for the closed examples.  Their contents
    only hold strings, of which [py_str] is the string itself, and their
    paper numbers are read from [note.number], so no example depends on the
    choice. *)
Definition ascii_builtins : Builtins :=
  {| py_repr := fun _ => "<object>"; py_int := fun v =>
       match v with PyInt z => Some z | _ => None end |}.

End MakeDecision.

(** ** extract_author_ids.py *)
Module AuthorIds.
Import PyString.

(** What the script reads of a profile: its [id]. *)
Record Profile := { profile_id : option string }.

(** The batch lookup [openreview.tools.get_profiles(client, unknowns)]: a
    list of profiles, some of which may be [None]. *)
Definition ProfileLookup := list string -> list (option Profile).

Definition LF : ascii := ascii_of_N 10.

(** Drops one final line feed: [$] also matches just before it. *)
Fixpoint chomp (s : string) : string :=
  match s with
  | EmptyString => EmptyString
  | String c EmptyString => if Ascii.eqb c LF then EmptyString else s
  | String c s' => String c (chomp s')
  end.

(** [.] of the pattern: any character but a line feed. *)
Definition is_dot (c : ascii) : bool := negb (Ascii.eqb c LF).

(** [TILDE_RE.match(m)] for [TILDE_RE = re.compile(r"^~.+\d+$")]: a tilde,
    then at least one character matched by [.] followed by at least one
    digit, up to the end or a final line feed.  Since a digit is also
    matched by [.], what follows the tilde has two characters or more, no
    line feed, and a digit last. *)
Definition tilde_match (m : string) : bool :=
  match m with
  | String "~" rest =>
      let body := chomp rest in
      (2 <=? String.length body)%nat && all_chars is_dot body
      && last_is is_digit body
  | _ => false
  end.

(** [if p and p.id]: the profile is there and its id is a non-empty string. *)
Definition usable_id (p : option Profile) : option string :=
  match p with
  | Some {| profile_id := Some i |} => if String.eqb i "" then None else Some i
  | _ => None
  end.

Definition resolve_to_profile_ids (members : list string)
    (get_profiles : ProfileLookup) : gset string :=
  let tilde_ids : gset string := list_to_set (List.filter tilde_match members) in
  let unknowns :=
    List.filter (fun m => negb (bool_decide (m ∈ tilde_ids))) members in
  let resolved := tilde_ids in
  match unknowns with
  | [] => resolved
  | _ :: _ =>
      let profiles := get_profiles unknowns in
      fold_left
        (fun resolved p =>
           match usable_id p with
           | Some i => resolved ∪ {[ i ]}
           | None => resolved
           end)
        profiles resolved
  end.

(** The members that do not look like profile ids. *)
Definition unknown_members (members : list string) : list string :=
  List.filter (fun m => negb (tilde_match m)) members.

(** The words of the pattern, read off it: [~], then [x] for [.+], then [d]
    for [\d+], then the end or a final line feed. *)
Definition tilde_shaped (m : string) : Prop :=
  exists x d nl,
    m = "~" ++ x ++ d ++ nl /\
    x <> "" /\ all_chars is_dot x = true /\
    d <> "" /\ all_chars is_digit d = true /\
    (nl = "" \/ nl = String LF "").

(** The identifiers a lookup answers with. *)
Definition lookup_ids (get_profiles : ProfileLookup) (unknowns : list string)
  : gset string :=
  list_to_set (omap usable_id (get_profiles unknowns)).

(** A lookup whose answer, as a set of identifiers, depends only on the set
    of members asked about. *)
Definition set_determined (get_profiles : ProfileLookup) : Prop :=
  forall l1 l2 : list string,
    (forall m, m ∈ l1 <-> m ∈ l2) ->
    lookup_ids get_profiles l1 = lookup_ids get_profiles l2.

End AuthorIds.

(** ** make_decision.py: the run *)
Module MakeDecisionRun.
Import PyString MakeDecision.

Definition VENUE_ID : string := "NeurIPS.cc/2025/Workshop/SEA".

(** The list [candidates] of [find_submission_invitation]. *)
Definition submission_candidates : list string :=
  [ VENUE_ID ++ "/-/-/Blind_Submission";
    VENUE_ID ++ "/-/-/Blind_Submission2";
    VENUE_ID ++ "/-/-/Submission";
    VENUE_ID ++ "/-/-/Paper";
    VENUE_ID ++ "/-/Submission";
    VENUE_ID ++ "/-/Blind_Submission" ].

(** [for inv in candidates: try: client.get_invitation(inv); return inv
    except OpenReviewException: continue].  Of the client only whether
    [get_invitation(inv)] returns ([true]) or raises ([false]) matters. *)
Fixpoint try_invitations (get_invitation : string -> bool)
    (candidates : list string) : option string :=
  match candidates with
  | [] => None
  | inv :: candidates' =>
      if get_invitation inv then Some inv
      else try_invitations get_invitation candidates'
  end.

(** [None] stands for the [RuntimeError] raised after the loop. *)
Definition find_submission_invitation (get_invitation : string -> bool)
  : option string :=
  try_invitations get_invitation submission_candidates.

(** How [main] ends: [sys.exit(status)], or the two tables handed to
    [DataFrame] ([rows] as appended, before [sort_values] reorders them, and
    the flagged column). *)
Inductive Outcome :=
| Exit (status : Z)
| Wrote (rows : list Row) (flagged : list Z).

Section WithBuiltins.
Context `{Builtins}.

(** [main], its client given by what its three kinds of calls answer:
    [get_invitation], [iter_notes(invitation=...)] and
    [iter_notes(forum=...)]. *)
Definition main (get_invitation : string -> bool)
    (notes_of_invitation : string -> list Note) (client : Client) : Outcome :=
  match find_submission_invitation get_invitation with
  | None => Exit 2
  | Some sub_inv =>
      let submissions := notes_of_invitation sub_inv in
      match submissions with
      | [] => Exit 0
      | _ :: _ =>
          let '(rows, flagged_low_score_accept) := main_loop client submissions in
          Wrote rows (flagged_column flagged_low_score_accept)
      end
  end.

End WithBuiltins.

(** Two rows in the order of [sort_values("paper_number")]. *)
Definition le_number (a b : Row) : Prop := paper_number a <= paper_number b.

(** [DataFrame(rows).sort_values("paper_number")], the table written to
    [sea_decisions.csv]: the rows reordered so that [paper_number] ascends.
    Which of two rows with the same number comes first is left open, the
    default sort being not stable. *)
Definition sort_values (rows written : list Row) : Prop :=
  Permutation written rows /\ Sorted le_number written.


(** *** The score pattern as the specification writes it *)




(** [{value: v}], the wrapped form of a field value. *)
Definition wrap (v : PyValue) : PyValue := PyDict [("value", v)].

Definition wrap_content (content : dict) : dict :=
  map (fun kv : string * PyValue => (fst kv, wrap (snd kv))) content.

(** A note whose every field value is in the wrapped form. *)
Definition wrap_note (n : Note) : Note :=
  {| note_id := note_id n; note_forum := note_forum n;
     note_number := note_number n; note_invitations := note_invitations n;
     note_cdate := note_cdate n;
     note_content := Some (wrap_content (content_or_empty n)) |}.

(** [isinstance(v, dict)] *)
Definition is_dict (v : PyValue) : bool :=
  match v with
  | PyDict _ => true
  | _ => false
  end.

(** A content none of whose values is a mapping. *)
Definition plain_content (content : dict) : Prop :=
  Forall (fun kv : string * PyValue => is_dict (snd kv) = false) content.

End MakeDecisionRun.

(** ** extract_accepted_papers.py: the notes *)
Module AcceptedPapersNotes.
Import PyString MakeDecision AcceptedPapers.

(** [sep.join(l)] *)
Fixpoint join (sep : string) (l : list string) : string :=
  match l with
  | [] => ""
  | [x] => x
  | x :: l' => x ++ sep ++ join sep l'
  end.

(** A row of [accepted_papers.csv]. *)
Record Paper := {
  paper_number : Z;
  title : string;
  authors : string;
  presentation_type_of : string
}.

Section WithBuiltins.
Context `{Builtins}.

(** The loop of [get_paper_number] over the three content keys; the
    function returns [-1] when it finds nothing. *)
Fixpoint content_number (content : dict) (keys : list string) : Z :=
  match keys with
  | [] => -1
  | k :: keys' =>
      let v := default PyNone (dict_get content k) in
      let v := match v with
               | PyDict d => default PyNone (dict_get d "value")
               | _ => v
               end in
      match v with
      | PyNone => content_number content keys'
      | _ =>
          match py_int v with
          | Some n => n
          | None => content_number content keys'
          end
      end
  end.

Definition get_paper_number (note : Note) : Z :=
  match note_number note with
  | Some n => n
  | None =>
      content_number (content_or_empty note)
                     ["number"; "paper_number"; "submission_number"]
  end.

Definition get_title (note : Note) : string :=
  let content := content_or_empty note in
  let title := default (PyStr "") (dict_get content "title") in
  let title := match title with
               | PyDict d => default (PyStr "") (dict_get d "value")
               | _ => title
               end in
  strip (py_str title).

Definition get_authors (note : Note) : string :=
  let content := content_or_empty note in
  let authors := default (PyList []) (dict_get content "authors") in
  let authors := match authors with
                 | PyDict d => default (PyList []) (dict_get d "value")
                 | _ => authors
                 end in
  match authors with
  | PyList l => join ", " (map py_str l)
  | _ => strip (py_str authors)
  end.

Definition get_venue_field (note : Note) : string :=
  let content := content_or_empty note in
  let venue := default (PyStr "") (dict_get content "venue") in
  let venue := match venue with
               | PyDict d => default (PyStr "") (dict_get d "value")
               | _ => venue
               end in
  strip (py_str venue).

(** The record appended to [accepted_papers] for one note. *)
Definition paper_of_note (note : Note) : Paper :=
  let venue_field := get_venue_field note in
  {| paper_number := get_paper_number note;
     title := get_title note;
     authors := get_authors note;
     presentation_type_of := presentation_type venue_field |}.

(** [sum(1 for p in accepted_papers if p["presentation_type"] == t)] *)
Definition count_type (t : string) (accepted_papers : list Paper) : nat :=
  List.length
    (List.filter (fun p => String.eqb (presentation_type_of p) t) accepted_papers).

(** [main] from the fetched [venue_notes] on: [None] when nothing is
    written, otherwise the records (as appended, before [sort_values]) and
    the two printed counts. *)
Definition main (venue_notes : list Note) : option (list Paper * nat * nat) :=
  let accepted_papers := map paper_of_note venue_notes in
  match accepted_papers with
  | [] => None
  | _ :: _ =>
      Some (accepted_papers,
            count_type "Oral" accepted_papers,
            count_type "Poster" accepted_papers)
  end.

End WithBuiltins.

End AcceptedPapersNotes.

(** ** extract_author_ids.py: the run *)
Module AuthorIdsRun.
Import PyString MakeDecision AuthorIds.

(** The answer of a client call that may raise [OpenReviewException]:
    [inl msg] is the exception with [str(e) = msg]. *)
Definition Answer (A : Type) : Type := (string + A)%type.

(** What [main] uses of the client: [get_group(gid).members],
    [get_profiles] and [get_all_notes(content={"authorids": pid})]. *)
Record Client := {
  get_group : string -> Answer (option (list string));
  get_profiles : list string -> Answer (list (option Profile));
  get_all_notes : string -> list Note
}.

(** [resolve_to_profile_ids(members, client)] with a lookup that may
    raise: the lookup is called when [unknowns] is not empty, and its
    exception leaves the function. *)
Definition resolve_or_raise (members : list string) (client : Client)
  : Answer (gset string) :=
  let tilde_ids : gset string := list_to_set (List.filter tilde_match members) in
  let unknowns :=
    List.filter (fun m => negb (bool_decide (m ∈ tilde_ids))) members in
  match unknowns with
  | [] => inr (resolve_to_profile_ids members (fun _ => []))
  | _ :: _ =>
      match get_profiles client unknowns with
      | inl e => inl e
      | inr profiles => inr (resolve_to_profile_ids members (fun _ => profiles))
      end
  end.

(** The body of the [try] for one group. *)
Definition load_group (client : Client) (gid : string) : Answer (gset string) :=
  match get_group client gid with
  | inl e => inl e
  | inr members => resolve_or_raise (default [] members) client
  end.

(** [for gid in author_groups: try: ... except OpenReviewException as e:
    missing_groups.append((gid, str(e)))]: the pair of [all_profile_ids] and
    [missing_groups]. *)
Definition groups_loop (client : Client) (author_groups : list string)
  : gset string * list (string * string) :=
  fold_left
    (fun (acc : gset string * list (string * string)) gid =>
       let '(all_profile_ids, missing_groups) := acc in
       match load_group client gid with
       | inr ids => (all_profile_ids ∪ ids, missing_groups)
       | inl e => (all_profile_ids, (missing_groups ++ [(gid, e)])%list)
       end)
    author_groups (∅, []).

Definition count_submissions (profile_id : string) (client : Client) : nat :=
  let notes := get_all_notes client profile_id in
  List.length notes.

(** [for pid in sorted(all_profile_ids): n_subs = count_submissions(pid,
    client); if n_subs >= 0: submissions_counter[pid] = n_subs] *)
Definition submissions_counter (client : Client) (all_profile_ids : gset string)
  : gmap string nat :=
  fold_left
    (fun (counter : gmap string nat) pid =>
       let n_subs := count_submissions pid client in
       if (0 <=? n_subs)%nat then <[pid := n_subs]> counter else counter)
    (merge_sort String.le (elements all_profile_ids)) ∅.

(** [main] from the configured groups on: the dictionary dumped to
    [author_ids.json]. *)
Definition main (client : Client) (author_groups : list string)
  : gmap string nat :=
  submissions_counter client (fst (groups_loop client author_groups)).

End AuthorIdsRun.

(** ** Sample records *)
Module Samples.
Import MakeDecision AuthorIds.

Definition review_invitation : string :=
  "NeurIPS.cc/2025/Workshop/SEA/Submission7/-/Official_Review".

Definition meta_invitation : string :=
  "NeurIPS.cc/2025/Workshop/SEA/Submission7/-/Meta_Review".

(** A reply of forum [forum7]. *)
Definition reply (inv : string) (cdate : Z) (content : dict) : Note :=
  {| note_id := "reply"; note_forum := Some "forum7"; note_number := None;
     note_invitations := Some [inv]; note_cdate := Some cdate;
     note_content := Some content |}.

(** A review scored under the first candidate field. *)
Definition rated_review : Note :=
  reply review_invitation 10 [("rating", PyStr "6: Weak Accept")].

(** Two reviews of a venue whose form keeps the score under a later
    candidate field. *)
Definition recommending_review_6 : Note :=
  reply review_invitation 15 [("recommendation", PyStr "6: Weak Accept")].

Definition recommending_review_4 : Note :=
  reply review_invitation 20 [("recommendation", PyStr "4: Borderline")].

(** A meta-review that recommends with a leading number. *)
Definition scored_meta_review : Note :=
  reply meta_invitation 5 [("recommendation", PyStr "8: Accept (Oral)")].

Definition low_review : Note :=
  reply review_invitation 30 [("rating", PyStr "4")].

(** Two meta-reviews created at times 100 and 200. *)
Definition meta_at_100 : Note :=
  reply meta_invitation 100 [("recommendation", PyStr "Reject")].

Definition meta_at_200 : Note :=
  reply meta_invitation 200 [("recommendation", PyStr " Accept (Poster) ")].

(** A reply whose invitation spells the meta-review in lower case. *)
Definition lowercase_meta_reply : Note :=
  reply "NeurIPS.cc/2025/Workshop/SEA/Submission7/-/meta_review" 300
        [("recommendation", PyStr "Accept")].

(** A content whose decision key is capitalised. *)
Definition capitalised_content : dict := [("Recommendation", PyStr "Accept")].

(** A content that holds the decision under the last candidate key. *)
Definition decision_content : dict :=
  [("title", PyStr "Meta review"); ("decision", PyStr " Accept (Oral) ")].

(** A submission without a paper number, in the note or in its content. *)
Definition unnumbered (id : string) : Note :=
  {| note_id := id; note_forum := Some id; note_number := None;
     note_invitations := Some ["NeurIPS.cc/2025/Workshop/SEA/-/Submission"];
     note_cdate := Some 1; note_content := Some [("title", PyStr id)] |}.

(** A submission with a paper number. *)
Definition numbered (id : string) (n : Z) : Note :=
  {| note_id := id; note_forum := Some id; note_number := Some n;
     note_invitations := Some ["NeurIPS.cc/2025/Workshop/SEA/-/Submission"];
     note_cdate := Some 1; note_content := Some [("title", PyStr id)] |}.

(** A directory of two e-mail addresses. *)
Definition directory (member : string) : option Profile :=
  if String.eqb member "jane@example.com"
  then Some {| profile_id := Some "~Jane_Doe2" |}
  else if String.eqb member "joe@example.com"
  then Some {| profile_id := Some "~Joe_Roe1" |}
  else None.

(** A lookup that answers each member of the batch from the directory. *)
Definition lookup_each : ProfileLookup := map directory.

(** A lookup that answers only the first member of a batch. *)
Definition lookup_first : ProfileLookup :=
  fun unknowns =>
    match unknowns with
    | m :: _ => [directory m]
    | [] => []
    end.

(** A client whose forum holds the given replies. *)
Definition client_of (replies : list Note) : Client := fun _ => replies.

End Samples.

(** ** Sample runs *)
Module RunSamples.
Import MakeDecision MakeDecisionRun AcceptedPapersNotes AuthorIds AuthorIdsRun.

(** A venue whose submissions hang under the fifth candidate invitation. *)
Definition fifth_invitation_exists (inv : string) : bool :=
  String.eqb inv "NeurIPS.cc/2025/Workshop/SEA/-/Submission".

(** A meta-review whose recommendation is wrapped and padded. *)
Definition padded_meta_review : Note :=
  Samples.reply Samples.meta_invitation 50
    [("recommendation", PyDict [("value", PyStr "  Accept (Oral)  ")])].

(** A forum with an accepting meta-review and one review rated 3, and its
    submission. *)
Definition low_accept_client : MakeDecision.Client :=
  Samples.client_of
    [Samples.meta_at_200;
     Samples.reply Samples.review_invitation 30 [("rating", PyStr "3")]].

Definition low_accept_submission : Note := Samples.numbered "forum7" 12.

(** A note with two authors in the wrapped form. *)
Definition two_author_note : Note :=
  Samples.reply "NeurIPS.cc/2025/Workshop/SEA/-/Submission" 1
    [("authors", PyDict [("value", PyList [PyStr "Ada Lovelace"; PyStr "Alan Turing"])])].


(** The rows of two submissions numbered 5 and 3, in ascending order. *)
Definition rows_3_5 : list Row :=
  [ {| MakeDecision.paper_number := 3; decision := ""; comment := "" |};
    {| MakeDecision.paper_number := 5; decision := ""; comment := "" |} ].

(** A client with one group of two members, one group without members and
    no other group; only ~Jane_Doe1 has authored a note. *)
Definition author_client : AuthorIdsRun.Client :=
  {| get_group := fun gid =>
       if String.eqb gid "SEA/Authors"
       then inr (Some ["~Jane_Doe1"; "jane@example.com"])
       else if String.eqb gid "SEA/Reviewers" then inr None
       else inl "Group Not Found";
     get_profiles := fun unknowns => inr (Samples.lookup_each unknowns);
     get_all_notes := fun pid =>
       if String.eqb pid "~Jane_Doe1" then [Samples.numbered "a" 3] else [] |}.

End RunSamples.

(** * Properties *)

(** ** Facts about the string primitives *)
Module PyStringFacts.
Import PyString.

Lemma startswith_app (p s : string) :
  startswith p s = true <-> exists r, s = p ++ r.
Proof.
  revert s. induction p as [|a p IH]; intros s; simpl.
  - split; [intros _; eexists; reflexivity | reflexivity].
  - destruct s as [|b s].
    + split; [discriminate | intros [r Hr]; discriminate].
    + destruct (Ascii.eqb_spec a b) as [->|Hab].
      * rewrite IH. split; intros [r Hr]; exists r.
        -- now rewrite Hr.
        -- now inversion Hr.
      * split; [discriminate | intros [r Hr]; inversion Hr; congruence].
Qed.

Lemma app_cons (c : ascii) (a b : string) : String c a ++ b = String c (a ++ b).
Proof. reflexivity. Qed.

Lemma app_nil_l (a : string) : "" ++ a = a.
Proof. reflexivity. Qed.

Lemma app_nil_r_str (a : string) : a ++ "" = a.
Proof. induction a; [reflexivity | rewrite app_cons; now rewrite IHa]. Qed.

Lemma app_assoc_str (a b c : string) : (a ++ b) ++ c = a ++ (b ++ c).
Proof.
  induction a; [reflexivity | rewrite !app_cons; now rewrite IHa].
Qed.

(** [sub in s] holds exactly when [s] splits around an occurrence of [sub]. *)
Lemma contains_app (sub s : string) :
  contains sub s = true <-> exists pre post, s = pre ++ sub ++ post.
Proof.
  induction s as [|c s IH]; simpl.
  - rewrite orb_false_r, startswith_app. split.
    + intros [r Hr]. exists "", r. exact Hr.
    + intros (pre & post & H). destruct pre as [|x pre]; [|discriminate].
      exists post. exact H.
  - rewrite orb_true_iff, startswith_app, IH. split.
    + intros [[r Hr] | (pre & post & H)].
      * exists "", r. exact Hr.
      * exists (String c pre), post. rewrite app_cons. now rewrite H.
    + intros (pre & post & H). destruct pre as [|x pre].
      * left. exists post. exact H.
      * right. rewrite app_cons in H. inversion H. exists pre, post. reflexivity.
Qed.

Lemma lower_app (a b : string) : lower (a ++ b) = lower a ++ lower b.
Proof.
  induction a; [reflexivity | rewrite !app_cons; simpl; now rewrite IHa].
Qed.

(** A substring test on the lower-cased text sees every occurrence of any
    casing of the needle. *)
Lemma contains_lower (sub s : string) :
  contains sub s = true -> contains (lower sub) (lower s) = true.
Proof.
  rewrite !contains_app. intros (pre & post & ->).
  exists (lower pre), (lower post). now rewrite !lower_app.
Qed.

Lemma contains_trans (a b s : string) :
  contains a b = true -> contains b s = true -> contains a s = true.
Proof.
  rewrite !contains_app. intros (p1 & q1 & ->) (p2 & q2 & ->).
  exists (p2 ++ p1), (q1 ++ q2). now rewrite !app_assoc_str.
Qed.

Lemma lower_split (s a b : string) :
  lower s = a ++ b -> exists x y, s = x ++ y /\ lower x = a /\ lower y = b.
Proof.
  revert s. induction a as [|c a IH]; intros s Hs.
  - exists "", s. auto.
  - destruct s as [|d s]; [discriminate|].
    rewrite app_cons in Hs. simpl in Hs. inversion Hs as [[Hc Hr]].
    destruct (IH s Hr) as (x & y & -> & Hx & Hy).
    exists (String d x), y. rewrite app_cons. simpl. rewrite Hx. auto.
Qed.

Lemma lower_idem (s : string) : lower (lower s) = lower s.
Proof.
  induction s as [|c s IH]; simpl; [reflexivity|]. rewrite IH. f_equal.
  destruct c as [[] [] [] [] [] [] [] []]; reflexivity.
Qed.

Lemma contains_occurs (sub s : string) :
  contains sub s = true <-> occurs sub s.
Proof. apply contains_app. Qed.

(** The test [sub in s.lower()] for a lower-case literal [sub] is the
    case-insensitive substring test. *)
Lemma contains_lower_nocase (sub s : string) :
  contains (lower sub) (lower s) = true <-> occurs_nocase sub s.
Proof.
  rewrite contains_app. split.
  - intros (pre & post & Hs).
    destruct (lower_split _ _ _ Hs) as (x & y & -> & Hx & Hy).
    destruct (lower_split _ _ _ Hy) as (m & z & -> & Hm & Hz).
    exists x, m, z. auto.
  - intros (pre & mid & post & -> & Hm).
    exists (lower pre), (lower post). now rewrite !lower_app, Hm.
Qed.

(** The test [s.lower().startswith(p)] for a lower-case literal [p]. *)
Lemma startswith_lower_nocase (p s : string) :
  startswith (lower p) (lower s) = true <-> starts_nocase p s.
Proof.
  rewrite startswith_app. split.
  - intros (r & Hs).
    destruct (lower_split _ _ _ Hs) as (x & y & -> & Hx & Hy).
    exists x, y. auto.
  - intros (h & t & -> & Hh). exists (lower t). now rewrite lower_app, Hh.
Qed.

Lemma all_chars_app (p : ascii -> bool) (a b : string) :
  all_chars p (a ++ b) = all_chars p a && all_chars p b.
Proof.
  induction a as [|c a IH]; [reflexivity|].
  rewrite app_cons. simpl. now rewrite IH, andb_assoc.
Qed.

(** [lstrip] removes a run of white space and stops at the first other
    character. *)
Lemma lstrip_spec (s : string) :
  exists ws, s = ws ++ lstrip s /\ all_chars is_space ws = true /\
             head_is is_space (lstrip s) = false.
Proof.
  induction s as [|c s (ws & Hs & Hws & Hhd)].
  - exists "". auto.
  - simpl. destruct (is_space c) eqn:E.
    + exists (String c ws). rewrite app_cons, <- Hs. simpl. rewrite E. auto.
    + exists "". simpl. auto.
Qed.

Lemma lstrip_app (ws t : string) :
  all_chars is_space ws = true -> head_is is_space t = false ->
  lstrip (ws ++ t) = t.
Proof.
  induction ws as [|c ws IH]; intros Hws Ht.
  - rewrite app_nil_l. destruct t as [|d t]; [reflexivity|].
    simpl in *. now rewrite Ht.
  - rewrite app_cons. simpl in *. apply andb_true_iff in Hws as [Hc Hws].
    rewrite Hc. auto.
Qed.

Lemma digit_not_space (c : ascii) : is_digit c = true -> is_space c = false.
Proof.
  unfold is_digit, is_space. intros Hd.
  apply andb_true_iff in Hd as [H1 H2].
  apply N.leb_le in H1, H2.
  apply orb_false_iff. split; apply andb_false_iff.
  - right. apply N.leb_gt. lia.
  - right. apply N.leb_gt. lia.
Qed.

Lemma rstrip_spec (s : string) :
  exists ws, s = rstrip s ++ ws /\ all_chars is_space ws = true /\
             last_is is_space (rstrip s) = false.
Proof.
  induction s as [|c s (ws & Hs & Hws & Hlast)].
  - exists "". auto.
  - cbn [rstrip]. destruct (rstrip s) as [|d r] eqn:E.
    + rewrite app_nil_l in Hs. subst ws. destruct (is_space c) eqn:Ec.
      * exists (String c s). simpl. rewrite Ec. auto.
      * exists s. rewrite app_cons, app_nil_l. simpl. auto.
    + exists ws. rewrite app_cons, <- Hs. auto.
Qed.

(** [rstrip] keeps the front of the text. *)
Lemma rstrip_head (p : ascii -> bool) (s : string) :
  head_is p (rstrip s) = true -> head_is p s = true.
Proof.
  destruct s as [|c s]; [discriminate|]. cbn [rstrip].
  destruct (rstrip s); [destruct (is_space c); [discriminate|]|]; auto.
Qed.

(** [strip] removes white space on both sides and nothing else. *)
Lemma strip_spec (s : string) :
  exists ws1 ws2,
    s = ws1 ++ strip s ++ ws2 /\
    all_chars is_space ws1 = true /\ all_chars is_space ws2 = true /\
    is_trimmed (strip s) = true.
Proof.
  destruct (lstrip_spec s) as (ws1 & Hs & Hws1 & Hhd).
  destruct (rstrip_spec (lstrip s)) as (ws2 & Hl & Hws2 & Hlast).
  exists ws1, ws2. unfold strip, is_trimmed. rewrite <- Hl, <- Hs, Hlast.
  repeat split; auto. rewrite andb_true_r.
  destruct (head_is is_space (rstrip (lstrip s))) eqn:E; [|reflexivity].
  apply rstrip_head in E. congruence.
Qed.

End PyStringFacts.

(** ** extract_accepted_papers.py: the presentation type *)
Module AcceptedPapersProofs.
Import PyString PyStringFacts AcceptedPapers.

(** C9.  The presentation type is a total function of the venue tag into
    Oral, Poster and the empty string: it is Oral exactly when the tag
    contains oral in some casing, Poster exactly when it does not but contains
    poster in some casing, and empty exactly when it contains neither; the
    three sample tags of the specification give Oral, Poster and empty. *)
Theorem presentation_type_classifies (venue : string) :
  (presentation_type venue = "Oral" \/ presentation_type venue = "Poster"
   \/ presentation_type venue = "") /\
  (presentation_type venue = "Oral" <-> occurs_nocase "oral" venue) /\
  (presentation_type venue = "Poster" <->
     ~ occurs_nocase "oral" venue /\ occurs_nocase "poster" venue) /\
  (presentation_type venue = "" <->
     ~ occurs_nocase "oral" venue /\ ~ occurs_nocase "poster" venue) /\
  presentation_type "SEA @ NeurIPS 2025 Oral" = "Oral" /\
  presentation_type "SEA @ NeurIPS 2025 Poster" = "Poster" /\
  presentation_type "Workshop Accept" = "".
Proof.
  rewrite <- (contains_lower_nocase "oral"), <- (contains_lower_nocase "poster").
  change (lower "oral") with "oral". change (lower "poster") with "poster".
  unfold presentation_type.
  destruct (contains "oral" (lower venue)), (contains "poster" (lower venue));
    cbv zeta; repeat split; intros; try discriminate; try tauto;
    try (intros []; discriminate); intuition discriminate.
Qed.

End AcceptedPapersProofs.

(** ** make_decision.py *)
Module MakeDecisionProofs.
Import PyString PyStringFacts MakeDecision.

(** *** The score pattern *)

Lemma span_digits_spec (s d r : string) :
  span_digits s = (d, r) ->
  s = d ++ r /\ all_chars is_digit d = true /\ head_is is_digit r = false.
Proof.
  revert d r. induction s as [|c s IH]; intros d r; simpl.
  - intros [= <- <-]. auto.
  - destruct (is_digit c) eqn:E.
    + destruct (span_digits s) as [d' r']. intros [= <- <-].
      destruct (IH _ _ eq_refl) as (-> & Hd & Hr).
      rewrite app_cons. simpl. rewrite E. auto.
    + intros [= <- <-]. simpl. auto.
Qed.

Lemma span_digits_app (d r : string) :
  all_chars is_digit d = true -> head_is is_digit r = false ->
  span_digits (d ++ r) = (d, r).
Proof.
  induction d as [|c d IH]; intros Hd Hr.
  - rewrite app_nil_l. destruct r as [|x r]; [reflexivity|].
    simpl in *. now rewrite Hr.
  - rewrite app_cons. simpl in *. apply andb_true_iff in Hd as [Hc Hd].
    rewrite Hc, (IH Hd Hr). reflexivity.
Qed.

Lemma head_digit_not_space (t : string) :
  head_is is_digit t = true -> head_is is_space t = false.
Proof. destruct t; simpl; [reflexivity | apply digit_not_space]. Qed.

Lemma head_is_app (p : ascii -> bool) (a b : string) :
  a <> "" -> head_is p (a ++ b) = head_is p a.
Proof. destruct a; [congruence | reflexivity]. Qed.

Lemma all_head (p : ascii -> bool) (a : string) :
  a <> "" -> all_chars p a = true -> head_is p a = true.
Proof.
  destruct a; [congruence|]. simpl. intros _ Ha.
  now apply andb_true_iff in Ha.
Qed.

(** The matcher finds exactly the leading token of the pattern. *)
Lemma match_score_leading (s i f : string) :
  match_score s = Some (i, f) <-> leading_token s i f.
Proof.
  unfold match_score, leading_token. split.
  - destruct (lstrip_spec s) as (ws & Hs & Hws & Hhd).
    destruct (span_digits (lstrip s)) as [i0 rest] eqn:Ei.
    destruct (span_digits_spec _ _ _ Ei) as (Hl & Hi & Hrest).
    destruct i0 as [|c i0]; [discriminate|].
    destruct rest as [|x rest].
    { intros [= <- <-]. exists ws, "". simpl token_text.
      rewrite Hs at 1. rewrite Hl. repeat split; auto; discriminate. }
    destruct (Ascii.eqb_spec x ".") as [->|Hx].
    + destruct (span_digits rest) as [f0 rest'] eqn:Ef.
      destruct (span_digits_spec _ _ _ Ef) as (Hr & Hf & Hrest').
      intros [= <- <-]. destruct f0 as [|y f0].
      * exists ws, (String "." rest). simpl token_text.
        rewrite Hs at 1. rewrite Hl. repeat split; auto; try discriminate.
        intros _ r [= <-]. rewrite Hr. exact Hrest'.
      * exists ws, rest'. simpl token_text.
        rewrite Hs at 1. rewrite Hl, Hr.
        rewrite !app_assoc_str. repeat split; auto; discriminate.
    + assert (Hm : match x with
                   | "."%char => let (f1, _) := span_digits rest in
                                 Some (String c i0, f1)
                   | _ => Some (String c i0, "")
                   end = Some (String c i0, "")).
      { destruct x as [[] [] [] [] [] [] [] []]; try reflexivity.
        exfalso. apply Hx. reflexivity. }
      rewrite Hm. intros [= <- <-]. exists ws, (String x rest).
      simpl token_text. rewrite Hs at 1. rewrite Hl.
      repeat split; auto; try discriminate.
      intros _ r [= -> _]. exfalso. apply Hx. reflexivity.
  - intros (ws & rest & -> & Hws & Hi & Hdi & Hdf & Hrest & Hdot).
    assert (Hhd : head_is is_digit (token_text i f ++ rest) = true).
    { destruct f; simpl token_text.
      - rewrite head_is_app by exact Hi. now apply all_head.
      - rewrite app_assoc_str, head_is_app by exact Hi. now apply all_head. }
    rewrite (lstrip_app _ _ Hws (head_digit_not_space _ Hhd)).
    destruct f as [|y f]; simpl token_text.
    + rewrite (span_digits_app _ _ Hdi Hrest).
      destruct i as [|c i]; [congruence|].
      destruct rest as [|x rest]; [reflexivity|].
      destruct (Ascii.eqb_spec x ".") as [->|Hx].
      * specialize (Hdot eq_refl rest eq_refl).
        destruct rest as [|z rest]; [reflexivity|].
        simpl in Hdot. simpl. now rewrite Hdot.
      * destruct x as [[] [] [] [] [] [] [] []]; try reflexivity.
        exfalso. apply Hx. reflexivity.
    + rewrite !app_assoc_str.
      rewrite (span_digits_app i ("." ++ String y f ++ rest) Hdi eq_refl).
      destruct i as [|c i]; [congruence|].
      change ("." ++ String y f ++ rest) with (String "." (String y f ++ rest)).
      cbv iota beta.
      rewrite (span_digits_app _ _ Hdf Hrest). reflexivity.
Qed.






Section ParseNumericScore.
Context `{Builtins}.


End ParseNumericScore.



(** *** The average review score *)

Section AverageReviewScore.
Context `{Builtins}.

Lemma try_candidates_field (content : dict) (key : string) (scores : list Q) :
  try_candidates (candidates content key) scores
  = match spec_field_score content key with
    | Some sc => (scores ++ [sc])%list
    | None => scores
    end.
Proof.
  unfold spec_field_score, candidates.
  destruct (dict_get content key) as [v|];
    [|destruct (first_insensitive content key) as [v|]]; simpl;
    try destruct (parse_numeric_score (unwrap v)); reflexivity.
Qed.

(** With no score collected yet, the loop over the fields finds the score
    of the review as the specification describes it. *)
Lemma scan_fields_fresh (content : dict) (keys : list string) :
  scan_fields content keys []
  = match spec_extract_score content keys with
    | Some sc => [sc]
    | None => []
    end.
Proof.
  induction keys as [|key keys IH]; simpl; [reflexivity|].
  rewrite try_candidates_field.
  destruct (spec_field_score content key); simpl; [reflexivity | exact IH].
Qed.

(** Once a score has been collected, the loop over the fields stops after
    its first field. *)
Lemma scan_fields_started (content : dict) (key : string) (keys : list string)
    (sc0 : Q) (scores : list Q) :
  scan_fields content (key :: keys) (sc0 :: scores)
  = match spec_field_score content key with
    | Some sc => (sc0 :: scores ++ [sc])%list
    | None => sc0 :: scores
    end.
Proof.
  simpl. rewrite try_candidates_field.
  destruct (spec_field_score content key); reflexivity.
Qed.

Lemma scan_score_fields_started (content : dict) (sc0 : Q) (scores : list Q) :
  scan_fields content score_fields (sc0 :: scores)
  = match spec_field_score content "rating" with
    | Some sc => (sc0 :: scores ++ [sc])%list
    | None => sc0 :: scores
    end.
Proof. apply scan_fields_started. Qed.

Lemma fold_scan_started (reviews : list Note) (sc0 : Q) (scores : list Q) :
  fold_left
    (fun scores r => scan_fields (content_or_empty r) score_fields scores)
    reviews (sc0 :: scores)
  = (sc0 :: scores ++ collected true reviews)%list.
Proof.
  revert scores. induction reviews as [|r reviews IH]; intros scores.
  - simpl. now rewrite List.app_nil_r.
  - cbn [fold_left collected].
    rewrite scan_score_fields_started.
    destruct (spec_field_score (content_or_empty r) "rating") as [sc|].
    + rewrite IH. now rewrite <- List.app_assoc.
    + apply IH.
Qed.

(** The scores the code collects. *)
Lemma collect_scores_collected (reviews : list Note) :
  collect_scores reviews = collected false reviews.
Proof.
  unfold collect_scores.
  induction reviews as [|r reviews IH]; [reflexivity|].
  cbn [fold_left collected]. rewrite scan_fields_fresh.
  destruct (spec_extract_score (content_or_empty r) score_fields) as [sc|].
  - apply (fold_scan_started reviews sc []).
  - exact IH.
Qed.

(** C1.  A review whose score stands under a later candidate field is
    skipped once an earlier review has given a score.  Two reviews scored 6
    and 4 under recommendation each have a score by the priority strategy
    and their mean is 5, but [average_review_score] returns 6 for them, and 4
    when they come in the other order.  The same happens to a review scored
    under recommendation that follows one scored under rating; only when it
    comes first is it counted. *)
Theorem average_review_score_skips_later_fields :
  spec_extract_score (content_or_empty Samples.recommending_review_6)
                     score_fields = Some 6%Q /\
  spec_extract_score (content_or_empty Samples.recommending_review_4)
                     score_fields = Some 4%Q /\
  spec_average_score [Samples.recommending_review_6; Samples.recommending_review_4]
    = Some 5%Q /\
  average_review_score [Samples.recommending_review_6; Samples.recommending_review_4]
    = Some 6%Q /\
  average_review_score [Samples.recommending_review_4; Samples.recommending_review_6]
    = Some 4%Q /\
  spec_average_score [Samples.rated_review; Samples.recommending_review_4]
    = Some 5%Q /\
  average_review_score [Samples.rated_review; Samples.recommending_review_4]
    = Some 6%Q /\
  average_review_score [Samples.recommending_review_4; Samples.rated_review]
    = Some 5%Q.
Proof. repeat split. Qed.

(** Where every review keeps its score under the first candidate field (or
    has none), the code computes the mean the specification asks for. *)
Lemma collected_rating_only (started : bool) (reviews : list Note) :
  Forall (fun r =>
            spec_extract_score (content_or_empty r) score_fields
            = spec_field_score (content_or_empty r) "rating") reviews ->
  collected started reviews
  = omap (fun r => spec_extract_score (content_or_empty r) score_fields)
         reviews.
Proof.
  intros Hall. revert started.
  induction Hall as [|r reviews Hr _ IH]; intros started; [reflexivity|].
  cbn [collected omap list_omap]. rewrite <- Hr.
  destruct started;
    destruct (spec_extract_score (content_or_empty r) score_fields);
    now rewrite IH.
Qed.

Lemma collected_nil (reviews : list Note) :
  collected false reviews = []
  <-> omap (fun r => spec_extract_score (content_or_empty r) score_fields)
           reviews = [].
Proof.
  induction reviews as [|r reviews IH]; [reflexivity|].
  cbn [collected omap list_omap].
  destruct (spec_extract_score (content_or_empty r) score_fields).
  - split; discriminate.
  - exact IH.
Qed.

(** X1.  [average_review_score] returns [None] exactly when no review has a
    score by the priority strategy. *)
Theorem average_review_score_none_iff (reviews : list Note) :
  average_review_score reviews = None <-> spec_average_score reviews = None.
Proof.
  unfold average_review_score, spec_average_score.
  rewrite collect_scores_collected.
  pose proof (collected_nil reviews) as Hnil.
  destruct (collected false reviews) as [|sc scores],
           (omap (fun r => spec_extract_score (content_or_empty r) score_fields)
                 reviews) as [|sc' scores'].
  - reflexivity.
  - destruct Hnil as [Hnil _]. specialize (Hnil eq_refl). discriminate.
  - destruct Hnil as [_ Hnil]. specialize (Hnil eq_refl). discriminate.
  - split; discriminate.
Qed.

(** X2.  Where every review keeps its score under rating (or has none under
    any field), the scores [average_review_score] averages are exactly the
    per-review scores, one for each review that has a score, in review
    order. *)
Theorem collect_scores_all_when_rated (reviews : list Note) :
  Forall (fun r =>
            spec_extract_score (content_or_empty r) score_fields
            = spec_field_score (content_or_empty r) "rating") reviews ->
  collect_scores reviews
  = omap (fun r => spec_extract_score (content_or_empty r) score_fields) reviews.
Proof.
  intros Hall.
  now rewrite collect_scores_collected, (collected_rating_only false reviews Hall).
Qed.

End AverageReviewScore.

(** Two reviews rated 6 and 4 under rating: both scores are averaged. *)
Lemma collect_scores_all_when_rated_witness :
  @collect_scores ascii_builtins [Samples.rated_review; Samples.low_review]
  = [6%Q; 4%Q].
Proof.
  rewrite (@collect_scores_all_when_rated ascii_builtins
             [Samples.rated_review; Samples.low_review]).
  - reflexivity.
  - repeat constructor.
Defined.

(** *** Meta-reviews among the reviews *)

Lemma meta_candidate_is_review (n : Note) :
  is_meta_candidate n = true -> is_review n = true.
Proof.
  unfold is_meta_candidate, is_review, first_invitation.
  destruct (note_invitations n) as [[|inv rest]|]; try discriminate.
  intros Hm.
  assert (Hr : contains "review" (lower inv) = true).
  { apply orb_true_iff in Hm as [Hm|Hm]; apply contains_lower in Hm;
      refine (contains_trans _ _ _ _ Hm); reflexivity. }
  rewrite Hr. now rewrite orb_true_r.
Qed.

Section MetaReviewsCounted.
Context `{Builtins}.

(** C6.  A reply whose invitation contains Meta_Review or Meta-Review is
    also kept by [get_reviews_for_forum], so every meta-review of a forum
    is among its reviews; and a meta-review with a numeric recommendation
    can change the average: with it the forum below averages 6, without it
    4. *)
Theorem meta_reviews_counted_as_reviews :
  (forall n, is_meta_candidate n = true -> is_review n = true) /\
  (forall (client : Client) forum_id n,
     In n (List.filter is_meta_candidate (client forum_id)) ->
     In n (get_reviews_for_forum client forum_id)) /\
  (let client := Samples.client_of [Samples.scored_meta_review; Samples.low_review] in
   is_meta_candidate Samples.scored_meta_review = true /\
   get_reviews_for_forum client "forum7"
     = [Samples.scored_meta_review; Samples.low_review] /\
   average_review_score (get_reviews_for_forum client "forum7") = Some 6%Q /\
   average_review_score [Samples.low_review] = Some 4%Q).
Proof.
  split; [exact meta_candidate_is_review|]. split.
  - intros client forum_id n Hin. unfold get_reviews_for_forum.
    apply filter_In in Hin as [Hin Hm]. apply filter_In. split; [exact Hin|].
    now apply meta_candidate_is_review.
  - repeat split.
Qed.

End MetaReviewsCounted.

(** A meta-review of the sample forum is one of its reviews. *)
Lemma meta_reviews_counted_witness :
  In Samples.scored_meta_review
     (get_reviews_for_forum
        (Samples.client_of [Samples.scored_meta_review; Samples.low_review])
        "forum7").
Proof.
  apply (proj1 (proj2 (@meta_reviews_counted_as_reviews ascii_builtins))).
  simpl. left. reflexivity.
Defined.

(** *** The decision of a forum *)

Lemma insert_desc_cons (x : Note) (l : list Note) : insert_desc x l <> [].
Proof. destruct l as [|y l]; simpl; [|destruct (_ <? _)]; discriminate. Qed.

Lemma sorted_desc_nil (l : list Note) : sorted_desc l = [] -> l = [].
Proof.
  destruct l as [|x l]; [reflexivity|]. simpl. intros E.
  now apply insert_desc_cons in E.
Qed.

(** The head of the sorted list is the first note of the input among those
    with the largest key. *)
Lemma sorted_desc_head (l : list Note) (m : Note) (rest : list Note) :
  sorted_desc l = m :: rest ->
  exists before after,
    l = (before ++ m :: after)%list /\
    Forall (fun x => cdate_key x < cdate_key m) before /\
    Forall (fun x => cdate_key x <= cdate_key m) after.
Proof.
  revert m rest. induction l as [|x l IH]; intros m rest; [discriminate|].
  simpl. destruct (sorted_desc l) as [|y r] eqn:E.
  - apply sorted_desc_nil in E. subst l. intros [= <- <-].
    exists [], []. auto.
  - destruct (IH y r eq_refl) as (b & a & -> & Hb & Ha).
    simpl. destruct (cdate_key x <? cdate_key y) eqn:Elt.
    + apply Z.ltb_lt in Elt. intros [= <- <-].
      exists (x :: b), a. auto.
    + apply Z.ltb_ge in Elt. intros [= <- <-].
      exists [], (b ++ y :: a)%list. repeat split; [constructor|].
      apply Forall_app. split.
      * eapply Forall_impl; [exact Hb|]. simpl. intros; lia.
      * constructor; [exact Elt|].
        eapply Forall_impl; [exact Ha|]. simpl. intros; lia.
Qed.

Section DecisionForForum.
Context `{Builtins}.

(** C3.  With no meta-review in the forum the decision is [None];
    otherwise it is the decision text of the meta-review with the largest
    creation time (a missing time counts as 0), the earliest in input order
    among equals.  For two meta-reviews created at 100 and 200, in either
    order, it is the text of the one created at 200. *)
Theorem get_decision_for_forum_latest (client : Client) (forum_id : string) :
  let metas := List.filter is_meta_candidate (client forum_id) in
  match metas with
  | [] => get_decision_for_forum client forum_id = None
  | _ :: _ =>
      exists before meta after,
        metas = (before ++ meta :: after)%list /\
        Forall (fun x => cdate_key x < cdate_key meta) before /\
        Forall (fun x => cdate_key x <= cdate_key meta) after /\
        get_decision_for_forum client forum_id
        = decision_of_content (content_or_empty meta) decision_fields
  end /\
  (forall a b,
     note_cdate a = Some 100 -> note_cdate b = Some 200 ->
     metas = [a; b] \/ metas = [b; a] ->
     get_decision_for_forum client forum_id
     = decision_of_content (content_or_empty b) decision_fields).
Proof.
  intros metas. unfold get_decision_for_forum. fold metas. split.
  - destruct metas as [|m0 ms] eqn:Em; [reflexivity|]. rewrite <- Em.
    destruct (sorted_desc metas) as [|meta rest] eqn:Es.
    { apply sorted_desc_nil in Es. congruence. }
    destruct (sorted_desc_head _ _ _ Es) as (b & a & Hl & Hb & Ha).
    exists b, meta, a. auto.
  - intros a b Ha Hb [-> | ->]; simpl; unfold cdate_key;
      rewrite Ha, Hb; reflexivity.
Qed.

End DecisionForForum.

(** The two sample meta-reviews, the older one first: the later one
    decides. *)
Lemma get_decision_for_forum_latest_witness :
  @get_decision_for_forum ascii_builtins
    (Samples.client_of [Samples.meta_at_100; Samples.meta_at_200]) "forum7"
  = Some "Accept (Poster)".
Proof.
  rewrite (proj2 (@get_decision_for_forum_latest ascii_builtins
                    (Samples.client_of [Samples.meta_at_100; Samples.meta_at_200])
                    "forum7")
                 Samples.meta_at_100 Samples.meta_at_200
                 eq_refl eq_refl (or_introl eq_refl)).
  reflexivity.
Defined.

(** *** Which replies are meta-reviews *)

(** C4, as the code has it.  A reply is a meta-review candidate exactly when
    it has an invitation and its first invitation contains Meta_Review or
    Meta-Review in this very casing. *)
Theorem is_meta_candidate_exact_case (n : Note) :
  is_meta_candidate n = true <->
  exists inv others,
    note_invitations n = Some (inv :: others) /\
    (occurs "Meta_Review" inv \/ occurs "Meta-Review" inv).
Proof.
  unfold is_meta_candidate.
  destruct (note_invitations n) as [[|inv others]|].
  - split; [discriminate | intros (i & o & E & _); discriminate].
  - rewrite orb_true_iff, !contains_occurs. split.
    + intros Hm. exists inv, others. auto.
    + intros (i & o & [= <- <-] & Hm). exact Hm.
  - split; [discriminate | intros (i & o & E & _); discriminate].
Qed.

(** C4 refuted as stated: an invitation that spells meta_review in lower
    case contains it in some casing, yet the reply is not a candidate. *)
Lemma is_meta_candidate_misses_lower_case :
  occurs_nocase "meta_review" (first_invitation Samples.lowercase_meta_reply) /\
  is_meta_candidate Samples.lowercase_meta_reply = false.
Proof.
  split; [|reflexivity].
  apply (contains_lower_nocase "meta_review"). reflexivity.
Qed.

(** *** The decision text of a meta-review *)

Section DecisionText.
Context `{Builtins}.

Lemma decision_of_content_none (content : dict) (keys : list string) :
  (forall key, In key keys -> dict_get content key = None) ->
  decision_of_content content keys = None.
Proof.
  induction keys as [|k keys IH]; intros Hno; [reflexivity|].
  simpl. rewrite (Hno k) by (left; reflexivity).
  apply IH. intros key Hin. apply Hno. now right.
Qed.

Lemma decision_of_content_first (content : dict) (before : list string)
    (key : string) (after : list string) (val : PyValue) :
  (forall k, In k before -> dict_get content k = None) ->
  dict_get content key = Some val ->
  decision_of_content content (before ++ key :: after)%list
  = decision_text (decision_value val).
Proof.
  induction before as [|k before IH]; intros Hno Hkey; simpl.
  - now rewrite Hkey.
  - rewrite (Hno k) by (left; reflexivity).
    apply IH; [|exact Hkey]. intros k' Hin. apply Hno. now right.
Qed.

(** C5, as the code has it.  The candidate keys are looked up by exact
    match only, in their fixed order.  The first key present decides: its
    value, unwrapped from the [{value: ...}] form, gives the text of the
    value with the white space around it removed when the value is truthy,
    and [None] when it is not ([None], the empty string, an empty
    mapping); with no candidate key present the result is [None]. *)
Theorem decision_of_content_exact_keys (content : dict) :
  ((forall key, In key decision_fields -> dict_get content key = None) ->
   decision_of_content content decision_fields = None) /\
  (forall before key after val,
     decision_fields = (before ++ key :: after)%list ->
     (forall k, In k before -> dict_get content k = None) ->
     dict_get content key = Some val ->
     decision_of_content content decision_fields
     = decision_text (decision_value val)) /\
  (forall val t,
     decision_text val = Some t <->
     truthy val = true /\ t = strip (py_str val)) /\
  (forall val, decision_text val = None <-> truthy val = false) /\
  (forall val,
     exists ws1 ws2,
       py_str val = ws1 ++ strip (py_str val) ++ ws2 /\
       all_chars is_space ws1 = true /\ all_chars is_space ws2 = true /\
       is_trimmed (strip (py_str val)) = true).
Proof.
  split; [apply decision_of_content_none|]. split.
  { intros before key after val ->. apply decision_of_content_first. }
  split; [|split].
  - intros val t. unfold decision_text. destruct (truthy val).
    + split; [intros [= <-]; auto | intros [_ ->]; reflexivity].
    + split; [discriminate | intros [Hf _]; discriminate].
  - intros val. unfold decision_text. destruct (truthy val).
    + split; discriminate.
    + split; reflexivity.
  - intros val. apply strip_spec.
Qed.

End DecisionText.

(** The sample content holds its decision under the last candidate key. *)
Lemma decision_of_content_exact_keys_witness :
  @decision_of_content ascii_builtins Samples.decision_content decision_fields
  = Some "Accept (Oral)".
Proof.
  rewrite (proj1 (proj2 (@decision_of_content_exact_keys ascii_builtins
                           Samples.decision_content))
                 ["recommendation"; "final_recommendation"; "final decision"]
                 "decision" [] (PyStr " Accept (Oral) ") eq_refl).
  - reflexivity.
  - intros k [<- | [<- | [<- | []]]]; reflexivity.
  - reflexivity.
Defined.

(** C5 refuted as stated: under a capitalised key the strategy used for the
    scores finds the decision, the code does not. *)
Lemma decision_of_content_misses_capitalised_key :
  @spec_decision_text ascii_builtins Samples.capitalised_content decision_fields
    = Some "Accept" /\
  @decision_of_content ascii_builtins Samples.capitalised_content decision_fields
    = None.
Proof. split; reflexivity. Qed.

(** *** The rows of a run *)

Section MainLoop.
Context `{Builtins}.

(** The papers flagged by the loop, in order. *)
Lemma main_loop_fold (client : Client) (submissions : list Note)
    (rows : list Row) (flagged : list Z) :
  fold_left
    (fun (acc : list Row * list Z) sub =>
       let '(rows, flagged) := acc in
       let '(row, flag) := process_submission client sub in
       ((rows ++ [row])%list,
        if flag then (flagged ++ [paper_number row])%list else flagged))
    submissions (rows, flagged)
  = ((rows ++ map (fun sub => fst (process_submission client sub)) submissions)%list,
     (flagged ++
        map paper_no_of
            (List.filter (fun sub => snd (process_submission client sub))
                         submissions))%list).
Proof.
  revert rows flagged.
  induction submissions as [|sub submissions IH]; intros rows flagged.
  - simpl. now rewrite !List.app_nil_r.
  - cbn [fold_left map List.filter].
    destruct (process_submission client sub) as [row flag] eqn:E.
    assert (Hno : paper_number row = paper_no_of sub).
    { unfold process_submission in E. inversion E. reflexivity. }
    rewrite IH. cbn [fst snd]. destruct flag; cbn [map].
    + rewrite Hno, <- !List.app_assoc. reflexivity.
    + rewrite <- List.app_assoc. reflexivity.
Qed.

Lemma paper_number_process (client : Client) (sub : Note) :
  paper_number (fst (process_submission client sub)) = paper_no_of sub.
Proof. reflexivity. Qed.

Lemma flagged_column_In (flagged : list Z) (p : Z) :
  In p (flagged_column flagged) <-> In p flagged.
Proof.
  unfold flagged_column. rewrite <- !list_elem_of_In.
  rewrite merge_sort_Permutation, elem_of_elements, elem_of_list_to_set.
  reflexivity.
Qed.

Lemma flagged_column_NoDup (flagged : list Z) : NoDup (flagged_column flagged).
Proof.
  unfold flagged_column. rewrite merge_sort_Permutation.
  apply NoDup_elements.
Qed.

#[local] Instance le_number_dec : RelDecision MakeDecisionRun.le_number :=
  fun a b => Z_le_dec (paper_number a) (paper_number b).

#[local] Instance le_number_total : Total MakeDecisionRun.le_number.
Proof. intros a b. unfold MakeDecisionRun.le_number. lia. Qed.

(** [sort_values] has a result for every table. *)
Lemma sort_values_exists (rows : list Row) :
  exists written, MakeDecisionRun.sort_values rows written.
Proof.
  exists (merge_sort MakeDecisionRun.le_number rows). split.
  - apply merge_sort_Permutation.
  - apply Sorted_merge_sort. apply _.
Qed.

(** C7, as the code has it.  The table written holds exactly one row per
    fetched submission record, carrying the paper number resolved for that
    record (-1 when none is found): its paper numbers are those of the
    fetched records, each as often as it is resolved.  So no paper number
    appears twice in the rows whenever the fetched records resolve to
    pairwise distinct paper numbers.  The flagged column never repeats a
    paper number and only holds paper numbers of fetched records. *)
Theorem main_rows_one_per_record (client : Client) (submissions : list Note)
    (written : list Row) :
  MakeDecisionRun.sort_values (fst (main_loop client submissions)) written ->
  List.length written = List.length submissions /\
  Permutation (map paper_number written) (map paper_no_of submissions) /\
  (NoDup (map paper_no_of submissions) -> NoDup (map paper_number written)) /\
  NoDup (flagged_column (snd (main_loop client submissions))) /\
  (forall p, In p (flagged_column (snd (main_loop client submissions))) ->
             In p (map paper_no_of submissions)).
Proof.
  intros [Hperm _].
  assert (Hrows : map paper_number (fst (main_loop client submissions))
                  = map paper_no_of submissions).
  { unfold main_loop. rewrite main_loop_fold. cbn [fst app].
    rewrite map_map. apply map_ext. intros sub. apply paper_number_process. }
  assert (Hnum : Permutation (map paper_number written)
                             (map paper_no_of submissions)).
  { rewrite <- Hrows. now apply Permutation_map. }
  split.
  { rewrite <- (length_map paper_number written),
            <- (length_map paper_no_of submissions).
    now apply Permutation_length. }
  split; [exact Hnum|]. split.
  { intros Hnd. now rewrite Hnum. }
  split; [apply flagged_column_NoDup|].
  intros p Hp. apply (proj1 (flagged_column_In _ _)) in Hp.
  unfold main_loop in Hp. rewrite main_loop_fold in Hp. cbn [snd app] in Hp.
  apply in_map_iff in Hp as (sub & <- & Hin).
  apply filter_In in Hin as [Hin _]. now apply in_map.
Qed.

End MainLoop.

(** Two submissions fetched as 5 then 3 give the two rows 3 and 5. *)
Lemma main_rows_one_per_record_witness :
  NoDup (map paper_number RunSamples.rows_3_5).
Proof.
  assert (Hsorted : MakeDecisionRun.sort_values
                      (fst (@main_loop ascii_builtins (Samples.client_of [])
                              [Samples.numbered "b" 5; Samples.numbered "a" 3]))
                      RunSamples.rows_3_5).
  { split; [apply perm_swap|].
    repeat constructor; vm_compute; discriminate. }
  apply (proj1 (proj2 (proj2 (@main_rows_one_per_record ascii_builtins
                                (Samples.client_of [])
                                [Samples.numbered "b" 5; Samples.numbered "a" 3]
                                RunSamples.rows_3_5 Hsorted)))).
  apply (bool_decide_unpack _). vm_compute. exact I.
Defined.

(** C7 refuted as stated: two different submissions without a paper number
    both get the row number -1, and a record that is fetched twice gets two
    rows. *)
Lemma main_loop_repeats_fallback_number :
  Samples.unnumbered "a" <> Samples.unnumbered "b" /\
  map paper_number
      (fst (@main_loop ascii_builtins (Samples.client_of [])
              [Samples.unnumbered "a"; Samples.unnumbered "b"]))
  = [-1; -1] /\
  map paper_number
      (fst (@main_loop ascii_builtins (Samples.client_of [])
              [Samples.numbered "c" 5; Samples.numbered "c" 5]))
  = [5; 5].
Proof. split; [discriminate | split; reflexivity]. Qed.

(** *** The low-score-accept flag *)

Lemma Qltb_lt (a b : Q) : Qltb a b = true <-> (a < b)%Q.
Proof.
  unfold Qltb. rewrite negb_true_iff. split.
  - intros Hb. apply Qnot_le_lt. intros Hle.
    apply Qle_bool_iff in Hle. congruence.
  - intros Hlt. destruct (Qle_bool b a) eqn:E; [|reflexivity].
    apply Qle_bool_iff in E. apply Qlt_not_le in Hlt. contradiction.
Qed.

(** C2.  The flag is raised exactly when the decision starts with accept in
    some casing, an average score exists and it is below 4.0; the bound is
    exclusive: (Accept, 3.9) is flagged, (Accept, 4.0) and (Reject, 2.0) are
    not. *)
Theorem classify_low_score_accept_iff (d : string) (s : option Q) :
  (classify_low_score_accept d s = true <->
     starts_nocase "accept" d /\ exists q, s = Some q /\ (q < 4)%Q) /\
  classify_low_score_accept "Accept" (Some (39 # 10)%Q) = true /\
  classify_low_score_accept "Accept" (Some 4%Q) = false /\
  classify_low_score_accept "Reject" (Some 2%Q) = false.
Proof.
  split; [|repeat split].
  unfold classify_low_score_accept. rewrite andb_true_iff.
  change "accept" with (lower "accept") at 1.
  rewrite startswith_lower_nocase.
  destruct s as [q|].
  - rewrite Qltb_lt. split.
    + intros [Hd Hq]. split; [exact Hd|]. exists q. auto.
    + intros [Hd (q' & Hq' & Hlt)]. inversion Hq'. subst. auto.
  - split; [intros [_ Hf]; discriminate | intros [_ (q & Hq & _)]; discriminate].
Qed.

End MakeDecisionProofs.

(** ** extract_author_ids.py: profile resolution *)
Module AuthorIdsProofs.
Import PyString PyStringFacts AuthorIds.

(** *** The profile-id pattern *)

Lemma last_is_app (p : ascii -> bool) (a b : string) :
  b <> "" -> last_is p (a ++ b) = last_is p b.
Proof.
  intros Hb. induction a as [|c a IH]; [reflexivity|].
  rewrite app_cons. cbn [last_is]. rewrite IH.
  destruct (a ++ b) eqn:E; [|reflexivity].
  destruct a; [rewrite app_nil_l in E; congruence | discriminate].
Qed.

Lemma all_last (p : ascii -> bool) (d : string) :
  d <> "" -> all_chars p d = true -> last_is p d = true.
Proof.
  induction d as [|c d IH]; [congruence|]. intros _ Hall.
  simpl in Hall. apply andb_true_iff in Hall as [Hc Hd].
  destruct d as [|c' d]; [exact Hc|]. cbn [last_is]. apply IH; [discriminate|exact Hd].
Qed.

Lemma split_last (p : ascii -> bool) (s : string) :
  s <> "" -> exists x c, s = x ++ String c "" /\ last_is p s = p c.
Proof.
  induction s as [|c s IH]; [congruence|]. intros _.
  destruct s as [|c' s].
  - exists "", c. auto.
  - destruct IH as (x & c0 & Hx & Hl); [discriminate|].
    exists (String c x), c0. rewrite app_cons, <- Hx. auto.
Qed.

Lemma length_app_str (a b : string) :
  String.length (a ++ b) = (String.length a + String.length b)%nat.
Proof.
  induction a as [|c a IH]; [reflexivity|].
  rewrite app_cons. simpl. now rewrite IH.
Qed.

Lemma digit_is_dot (c : ascii) : is_digit c = true -> is_dot c = true.
Proof.
  unfold is_dot. destruct (Ascii.eqb_spec c LF) as [->|]; [discriminate|reflexivity].
Qed.

Lemma all_digit_dot (d : string) :
  all_chars is_digit d = true -> all_chars is_dot d = true.
Proof.
  induction d as [|c d IH]; [reflexivity|]. simpl. intros Hd.
  apply andb_true_iff in Hd as [Hc Hd]. now rewrite (digit_is_dot c Hc), IH.
Qed.

(** [chomp] removes the final line feed, if there is one. *)
Lemma chomp_spec (s : string) :
  exists nl, s = chomp s ++ nl /\ (nl = "" \/ nl = String LF "").
Proof.
  induction s as [|c s (nl & Hs & Hnl)].
  - exists "". auto.
  - destruct s as [|c' s].
    + cbn [chomp]. destruct (Ascii.eqb_spec c LF) as [->|].
      * exists (String LF ""). auto.
      * exists "". auto.
    + exists nl. change (chomp (String c (String c' s)))
        with (String c (chomp (String c' s))).
      rewrite app_cons, <- Hs. auto.
Qed.

Lemma chomp_keeps (b : string) :
  last_is is_dot b = true -> chomp b = b.
Proof.
  induction b as [|c b IH]; [reflexivity|]. destruct b as [|c' b].
  - cbn [last_is chomp]. unfold is_dot. now destruct (Ascii.eqb c LF).
  - intros Hl. change (chomp (String c (String c' b)))
      with (String c (chomp (String c' b))).
    now rewrite IH.
Qed.

Lemma chomp_line_feed (b : string) :
  b <> "" -> chomp (b ++ String LF "") = b.
Proof.
  induction b as [|c b IH]; [congruence|]. intros _.
  destruct b as [|c' b]; [reflexivity|].
  change (chomp (String c (String c' b) ++ String LF ""))
    with (String c (chomp (String c' b ++ String LF ""))).
  now rewrite IH.
Qed.

(** The matcher accepts exactly the words of the pattern. *)
Lemma tilde_match_shaped (m : string) :
  tilde_match m = true <-> tilde_shaped m.
Proof.
  unfold tilde_match, tilde_shaped. split.
  - destruct m as [|t rest]; [discriminate|].
    destruct (Ascii.eqb_spec t "~") as [->|Ht].
    + intros Hm. apply andb_true_iff in Hm as [Hm Hlast].
      apply andb_true_iff in Hm as [Hlen Hdot].
      apply Nat.leb_le in Hlen.
      destruct (chomp_spec rest) as (nl & Hrest & Hnl).
      destruct (split_last is_digit (chomp rest)) as (x & c & Hx & Hc).
      { intros E. rewrite E in Hlen. simpl in Hlen. lia. }
      rewrite Hc in Hlast. rewrite Hx in Hdot, Hlen.
      rewrite all_chars_app in Hdot. apply andb_true_iff in Hdot as [Hdx _].
      rewrite length_app_str in Hlen. simpl in Hlen.
      exists x, (String c ""), nl.
      split. { rewrite Hrest at 1. rewrite Hx, app_assoc_str. reflexivity. }
      split. { intros E. rewrite E in Hlen. simpl in Hlen. lia. }
      split; [exact Hdx|]. split; [discriminate|].
      split; [simpl; now rewrite Hlast | exact Hnl].
    + destruct t as [[] [] [] [] [] [] [] []]; try discriminate.
      exfalso. apply Ht. reflexivity.
  - intros (x & d & nl & -> & Hx & Hdx & Hd & Hdd & Hnl).
    change ("~" ++ x ++ d ++ nl) with (String "~" (x ++ d ++ nl)).
    cbv iota beta.
    assert (Hlast : last_is is_digit (x ++ d) = true).
    { rewrite last_is_app by exact Hd. now apply all_last. }
    assert (Hch : chomp (x ++ d ++ nl) = x ++ d).
    { destruct Hnl as [-> | ->].
      - rewrite app_nil_r_str.
        apply chomp_keeps. rewrite last_is_app by exact Hd.
        apply all_last; [exact Hd | now apply all_digit_dot].
      - rewrite <- app_assoc_str. apply chomp_line_feed.
        destruct x; [congruence | discriminate]. }
    cbv zeta. rewrite Hch, Hlast, all_chars_app, Hdx, (all_digit_dot d Hdd).
    rewrite length_app_str.
    destruct x; [congruence|]. destruct d; [congruence|].
    simpl. rewrite Nat.add_succ_r. reflexivity.
Qed.

(** *** The resolved set *)

#[local] Set Warnings "-clear-no-such-hyp".

Lemma fold_resolved (profiles : list (option Profile)) (resolved : gset string) :
  fold_left
    (fun resolved p =>
       match usable_id p with
       | Some i => resolved ∪ {[ i ]}
       | None => resolved
       end)
    profiles resolved
  = resolved ∪ list_to_set (omap usable_id profiles).
Proof.
  revert resolved. induction profiles as [|p profiles IH]; intros resolved.
  - simpl. set_solver.
  - cbn [fold_left omap list_omap]. rewrite IH.
    destruct (usable_id p); simpl; set_solver.
Qed.

(** The list [unknowns] of the code holds the members the pattern
    rejects. *)
Lemma unknowns_filter (members : list string) :
  List.filter
    (fun m => negb (bool_decide
                      (m ∈ (list_to_set (List.filter tilde_match members)
                            : gset string))))
    members
  = unknown_members members.
Proof.
  unfold unknown_members. apply filter_ext_in. intros m Hin. f_equal.
  destruct (tilde_match m) eqn:Em.
  - apply bool_decide_eq_true. apply elem_of_list_to_set.
    apply list_elem_of_In, filter_In. auto.
  - apply bool_decide_eq_false. rewrite elem_of_list_to_set.
    rewrite list_elem_of_In, filter_In. intros [_ Ht]. congruence.
Qed.

(** The resolved set is the union of the members that match the pattern
    with the identifiers the lookup answers for the others. *)
Lemma resolve_union (members : list string) (get_profiles : ProfileLookup) :
  resolve_to_profile_ids members get_profiles
  = list_to_set (List.filter tilde_match members)
    ∪ match unknown_members members with
      | [] => ∅
      | _ :: _ => lookup_ids get_profiles (unknown_members members)
      end.
Proof.
  unfold resolve_to_profile_ids. rewrite unknowns_filter.
  destruct (unknown_members members) as [|u us].
  - set_solver.
  - apply fold_resolved.
Qed.

Lemma filter_same_elements (f : string -> bool) (l1 l2 : list string) :
  (forall m, m ∈ l1 <-> m ∈ l2) ->
  forall m, m ∈ List.filter f l1 <-> m ∈ List.filter f l2.
Proof.
  intros Hsame m. rewrite !list_elem_of_In, !filter_In, <- !list_elem_of_In.
  now rewrite Hsame.
Qed.

Lemma map_set_determined (resolve_member : string -> option Profile) :
  set_determined (map resolve_member).
Proof.
  intros l1 l2 Hsame. unfold lookup_ids.
  apply set_eq. intros i. rewrite !elem_of_list_to_set, !list_elem_of_omap.
  split; intros (p & Hp & Hi); exists p; (split; [|exact Hi]);
    apply list_elem_of_In, in_map_iff in Hp as (m & <- & Hm);
    apply list_elem_of_In, in_map_iff; exists m; (split; [reflexivity|]);
    apply list_elem_of_In, Hsame, list_elem_of_In; exact Hm.
Qed.

(** C10.  The resolved set is the union of the members matching the
    pattern with the usable identifiers of the profiles the batch lookup
    returns for the other members (the lookup is not called when there are
    none).  It depends only on the set of the members, not on their order
    or multiplicity: for every batch lookup that resolves each member by
    itself, and more generally for every lookup whose set of answers is
    fixed by the set of members asked about.  Running it again on the same
    members gives the same set.  A lookup that resolves jane@example.com to
    ~Jane_Doe2 gives the two ids ~Jane_Doe1 and ~Jane_Doe2 for either order
    of the two members. *)
Theorem resolve_to_profile_ids_union (members : list string)
    (get_profiles : ProfileLookup) :
  resolve_to_profile_ids members get_profiles
  = list_to_set (List.filter tilde_match members)
    ∪ match unknown_members members with
      | [] => ∅
      | _ :: _ => lookup_ids get_profiles (unknown_members members)
      end /\
  (forall m, tilde_match m = true <-> tilde_shaped m) /\
  (set_determined get_profiles ->
   forall members' : list string,
     (forall m, m ∈ members <-> m ∈ members') ->
     resolve_to_profile_ids members' get_profiles
     = resolve_to_profile_ids members get_profiles) /\
  (get_profiles ["jane@example.com"]
     = [Some {| profile_id := Some "~Jane_Doe2" |}] ->
   resolve_to_profile_ids ["~Jane_Doe1"; "jane@example.com"] get_profiles
     = {[ "~Jane_Doe1"; "~Jane_Doe2" ]} /\
   resolve_to_profile_ids ["jane@example.com"; "~Jane_Doe1"] get_profiles
     = {[ "~Jane_Doe1"; "~Jane_Doe2" ]}) /\
  (forall (resolve_member : string -> option Profile) (members' : list string),
     (forall m, m ∈ members <-> m ∈ members') ->
     resolve_to_profile_ids members' (map resolve_member)
     = resolve_to_profile_ids members (map resolve_member)).
Proof.
  assert (Hset : forall lookup : ProfileLookup,
            set_determined lookup ->
            forall members' : list string,
              (forall m, m ∈ members <-> m ∈ members') ->
              resolve_to_profile_ids members' lookup
              = resolve_to_profile_ids members lookup);
    [|split; [apply resolve_union|]; split; [apply tilde_match_shaped|];
      split; [apply Hset|];
      split; [|intros resolve_member; apply Hset, map_set_determined]].
  - intros lookup Hdet members' Hsame. rewrite !resolve_union.
    assert (Ht : (list_to_set (List.filter tilde_match members') : gset string)
                 = list_to_set (List.filter tilde_match members)).
    { apply set_eq. intros m. rewrite !elem_of_list_to_set.
      symmetry. now apply filter_same_elements. }
    assert (Hu : forall m, m ∈ unknown_members members'
                           <-> m ∈ unknown_members members).
    { intros m. symmetry. now apply filter_same_elements. }
    rewrite Ht. f_equal.
    destruct (unknown_members members') as [|u' us'] eqn:E',
             (unknown_members members) as [|u us] eqn:E.
    + reflexivity.
    + exfalso. apply (not_elem_of_nil u). apply Hu. left.
    + exfalso. apply (not_elem_of_nil u'). apply Hu. left.
    + apply Hdet. exact Hu.
  - intros Hjane. rewrite !resolve_union.
    change (unknown_members ["~Jane_Doe1"; "jane@example.com"])
      with ["jane@example.com"].
    change (unknown_members ["jane@example.com"; "~Jane_Doe1"])
      with ["jane@example.com"].
    unfold lookup_ids. rewrite Hjane.
    change (List.filter tilde_match ["~Jane_Doe1"; "jane@example.com"])
      with ["~Jane_Doe1"].
    change (List.filter tilde_match ["jane@example.com"; "~Jane_Doe1"])
      with ["~Jane_Doe1"].
    cbn [omap list_omap usable_id String.eqb Ascii.eqb].
    split; set_solver.
Qed.

Lemma lookup_each_set_determined : set_determined Samples.lookup_each.
Proof.
  intros l1 l2 Hsame. unfold lookup_ids, Samples.lookup_each.
  apply set_eq. intros i. rewrite !elem_of_list_to_set, !list_elem_of_omap.
  split; intros (p & Hp & Hi); exists p; (split; [|exact Hi]);
    apply list_elem_of_In, in_map_iff in Hp as (m & <- & Hm);
    apply list_elem_of_In, in_map_iff; exists m; (split; [reflexivity|]);
    apply list_elem_of_In, Hsame, list_elem_of_In; exact Hm.
Qed.

(** The directory lookup gives the same set for a member list and for the
    same members reordered and repeated. *)
Lemma resolve_to_profile_ids_union_witness :
  resolve_to_profile_ids
    ["jane@example.com"; "~Jane_Doe1"; "jane@example.com"] Samples.lookup_each
  = resolve_to_profile_ids ["~Jane_Doe1"; "jane@example.com"] Samples.lookup_each.
Proof.
  apply (proj1 (proj2 (proj2 (resolve_to_profile_ids_union
                                ["~Jane_Doe1"; "jane@example.com"]
                                Samples.lookup_each)))
               lookup_each_set_determined).
  intros m. rewrite !elem_of_cons, !elem_of_nil. tauto.
Defined.

End AuthorIdsProofs.

(** ** make_decision.py: the functions around the aggregation *)
Module MakeDecisionMore.
Import PyString PyStringFacts MakeDecision MakeDecisionRun MakeDecisionProofs.

(** *** Which replies are reviews *)

(** X3.  [get_reviews_for_forum] keeps exactly the replies whose first
    invitation contains review in some casing, in fetch order; the test for
    official never decides. *)
Theorem get_reviews_for_forum_keeps_review_labels (client : Client)
    (forum_id : string) (n : Note) :
  In n (get_reviews_for_forum client forum_id)
  <-> In n (client forum_id) /\ occurs_nocase "review" (first_invitation n).
Proof.
  unfold get_reviews_for_forum. rewrite filter_In.
  rewrite <- (contains_lower_nocase "review").
  change (lower "review") with "review". unfold is_review.
  destruct (contains "review" (lower (first_invitation n)));
    destruct (contains "official" (lower (first_invitation n))); simpl; tauto.
Qed.

(** *** The submission invitation and the ways a run ends *)

Lemma try_invitations_some (get_invitation : string -> bool)
    (candidates : list string) (inv : string) :
  try_invitations get_invitation candidates = Some inv <->
  exists before after,
    candidates = (before ++ inv :: after)%list /\
    Forall (fun c => get_invitation c = false) before /\
    get_invitation inv = true.
Proof.
  induction candidates as [|c candidates IH]; simpl.
  - split; [discriminate|]. intros (b & a & E & _). now destruct b.
  - destruct (get_invitation c) eqn:Ec.
    + split.
      * intros [= <-]. exists [], candidates. auto.
      * intros (b & a & E & Hb & Hi). destruct b as [|c' b].
        -- now inversion E.
        -- inversion E; subst. inversion Hb; subst. congruence.
    + rewrite IH. split.
      * intros (b & a & -> & Hb & Hi). exists (c :: b), a. auto.
      * intros (b & a & E & Hb & Hi). destruct b as [|c' b].
        -- inversion E; subst. congruence.
        -- inversion E; subst. inversion Hb; subst. exists b, a. auto.
Qed.

Lemma try_invitations_none (get_invitation : string -> bool)
    (candidates : list string) :
  try_invitations get_invitation candidates = None <->
  Forall (fun c => get_invitation c = false) candidates.
Proof.
  induction candidates as [|c candidates IH]; simpl.
  - split; auto.
  - destruct (get_invitation c) eqn:Ec.
    + split; [discriminate|]. intros Hall. inversion Hall; subst. congruence.
    + rewrite IH. split; [auto|]. intros Hall. now inversion Hall.
Qed.

Section RunOutcome.
Context `{Builtins}.

Lemma main_loop_rows (client : Client) (submissions : list Note) :
  map paper_number (fst (main_loop client submissions))
  = map paper_no_of submissions.
Proof.
  unfold main_loop. rewrite main_loop_fold. cbn [fst app].
  rewrite map_map. apply map_ext. intros sub. apply paper_number_process.
Qed.

(** X4.  A run of [main] ends in one of three ways.  It exits with status 2
    exactly when none of the six candidate invitations exists; it exits
    with status 0 when the first existing candidate, in priority order, has
    no submissions; otherwise it writes one row per submission of that
    first existing candidate, at least one row. *)
Theorem main_outcome (get_invitation : string -> bool)
    (notes_of_invitation : string -> list Note) (client : Client) :
  match main get_invitation notes_of_invitation client with
  | Exit status =>
      (status = 2 /\
       Forall (fun c => get_invitation c = false) submission_candidates) \/
      (status = 0 /\
       exists before inv after,
         submission_candidates = (before ++ inv :: after)%list /\
         Forall (fun c => get_invitation c = false) before /\
         get_invitation inv = true /\
         notes_of_invitation inv = [])
  | Wrote rows flagged =>
      exists before inv after,
        submission_candidates = (before ++ inv :: after)%list /\
        Forall (fun c => get_invitation c = false) before /\
        get_invitation inv = true /\
        rows <> [] /\
        map paper_number rows = map paper_no_of (notes_of_invitation inv) /\
        flagged
        = flagged_column (snd (main_loop client (notes_of_invitation inv)))
  end.
Proof.
  unfold main, find_submission_invitation.
  destruct (try_invitations get_invitation submission_candidates) as [inv|] eqn:E.
  - apply try_invitations_some in E as (b & a & Hc & Hb & Hi).
    destruct (notes_of_invitation inv) as [|sub subs] eqn:En.
    + right. split; [reflexivity|]. exists b, inv, a. auto.
    + pose proof (main_loop_rows client (sub :: subs)) as Hrows.
      destruct (main_loop client (sub :: subs)) as [rows fl] eqn:Em.
      exists b, inv, a. rewrite En, Em. repeat split; auto.
      intros ->. discriminate Hrows.
  - apply try_invitations_none in E. left. auto.
Qed.

End RunOutcome.

(** *** The paper number *)

Section PaperNumber.
Context `{Builtins}.

Lemma content_number_default (content : dict) (keys : list string) :
  AcceptedPapersNotes.content_number content keys
  = default (-1) (number_of_content content keys).
Proof.
  induction keys as [|k keys IH]; [reflexivity|].
  cbn [AcceptedPapersNotes.content_number number_of_content].
  destruct (default PyNone (dict_get content k)) as [| | | | |d|];
    try destruct (default PyNone (dict_get d "value"));
    try exact IH; cbv zeta; destruct (py_int _); try exact IH; reflexivity.
Qed.

(** X5.  Both scripts resolve the same paper number for a note:
    [get_paper_number] of [extract_accepted_papers.py] equals the [paper_no]
    of [make_decision.py]'s [main], which is [get_paper_number] with [-1] for
    [None] (its second look at [sub.number] never finds anything).  A number
    on the note itself wins over any number in the content. *)
Theorem paper_number_same_in_both_scripts (note : Note) :
  AcceptedPapersNotes.get_paper_number note = paper_no_of note /\
  paper_no_of note = default (-1) (get_paper_number note) /\
  match note_number note with
  | Some n => paper_no_of note = n
  | None =>
      paper_no_of note
      = default (-1)
          (number_of_content (content_or_empty note)
             ["number"; "paper_number"; "submission_number"])
  end.
Proof.
  unfold AcceptedPapersNotes.get_paper_number, paper_no_of, get_paper_number.
  destruct (note_number note) as [n|].
  - repeat split.
  - rewrite content_number_default.
    destruct (number_of_content _ _); repeat split.
Qed.

End PaperNumber.

(** *** The decision text *)

Lemma lstrip_id (t : string) : head_is is_space t = false -> lstrip t = t.
Proof. destruct t as [|c t]; simpl; [reflexivity|]. now intros ->. Qed.

Lemma rstrip_id (t : string) : last_is is_space t = false -> rstrip t = t.
Proof.
  induction t as [|c t IH]; [reflexivity|]. destruct t as [|c' t].
  - simpl. now intros ->.
  - intros Hl. change (last_is is_space (String c' t) = false) in Hl.
    change (rstrip (String c (String c' t)))
      with (match rstrip (String c' t) with
            | EmptyString => if is_space c then EmptyString else String c EmptyString
            | String a r => String c (String a r)
            end).
    now rewrite (IH Hl).
Qed.

(** Stripping a text that is already trimmed changes nothing. *)
Lemma strip_trimmed (t : string) : is_trimmed t = true -> strip t = t.
Proof.
  unfold is_trimmed, strip. intros Ht.
  apply andb_true_iff in Ht as [Hh Hl].
  apply negb_true_iff in Hh, Hl. now rewrite (lstrip_id t Hh), (rstrip_id t Hl).
Qed.

Section DecisionTrimmed.
Context `{Builtins}.

Lemma decision_text_trimmed (val : PyValue) (t : string) :
  decision_text val = Some t -> is_trimmed t = true.
Proof.
  unfold decision_text. destruct (truthy val); [|discriminate].
  intros [= <-]. destruct (strip_spec (py_str val)) as (_ & _ & _ & _ & _ & Ht).
  exact Ht.
Qed.

Lemma decision_of_content_trimmed (content : dict) (keys : list string)
    (t : string) :
  decision_of_content content keys = Some t -> is_trimmed t = true.
Proof.
  induction keys as [|k keys IH]; [discriminate|]. simpl.
  destruct (dict_get content k); [apply decision_text_trimmed | exact IH].
Qed.

(** X6.  A decision returned by [get_decision_for_forum] never starts or
    ends with white space, so the second [strip] that [main] applies to it
    changes nothing. *)
Theorem get_decision_for_forum_trimmed (client : Client) (forum_id : string)
    (t : string) :
  get_decision_for_forum client forum_id = Some t ->
  is_trimmed t = true /\ strip t = t.
Proof.
  unfold get_decision_for_forum.
  destruct (List.filter is_meta_candidate (client forum_id)) as [|m0 ms];
    [discriminate|].
  destruct (sorted_desc (m0 :: ms)) as [|meta rest]; [discriminate|].
  intros Hd. apply decision_of_content_trimmed in Hd.
  split; [exact Hd | now apply strip_trimmed].
Qed.

End DecisionTrimmed.

(** The padded, wrapped recommendation of the sample meta-review comes
    back trimmed. *)
Lemma get_decision_for_forum_trimmed_witness :
  is_trimmed "Accept (Oral)" = true /\ strip "Accept (Oral)" = "Accept (Oral)".
Proof.
  apply (@get_decision_for_forum_trimmed ascii_builtins
           (Samples.client_of [RunSamples.padded_meta_review]) "forum7").
  reflexivity.
Defined.

(** *** The latest meta-review and the fetch order *)

Lemma filter_Permutation_bool {A : Type} (f : A -> bool) (l l' : list A) :
  Permutation l l' -> Permutation (List.filter f l) (List.filter f l').
Proof.
  induction 1 as [|x l l' _ IH|x y l|l l' l'' _ IH1 _ IH2]; simpl.
  - constructor.
  - destruct (f x); [now constructor | exact IH].
  - destruct (f x), (f y); try reflexivity. constructor.
  - now transitivity (List.filter f l').
Qed.

Lemma sorted_desc_head_max (l : list Note) (m : Note) (rest : list Note) :
  sorted_desc l = m :: rest ->
  In m l /\ forall x, In x l -> cdate_key x <= cdate_key m.
Proof.
  intros Hs. destruct (sorted_desc_head l m rest Hs) as (b & a & -> & Hb & Ha).
  split; [apply in_or_app; right; now left|].
  intros x Hx. apply in_app_or in Hx as [Hx | [<- | Hx]].
  - apply Z.lt_le_incl. exact (proj1 (List.Forall_forall _ _) Hb x Hx).
  - lia.
  - exact (proj1 (List.Forall_forall _ _) Ha x Hx).
Qed.

Lemma NoDup_key_inj (l : list Note) (a b : Note) :
  NoDup (map cdate_key l) -> In a l -> In b l ->
  cdate_key a = cdate_key b -> a = b.
Proof.
  induction l as [|x l IH]; [contradiction|]. cbn [map].
  rewrite NoDup_cons. intros [Hx Hnd] [<- | Ha] [<- | Hb] Hk.
  - reflexivity.
  - exfalso. apply Hx. rewrite Hk. apply list_elem_of_In. now apply in_map.
  - exfalso. apply Hx. rewrite <- Hk. apply list_elem_of_In. now apply in_map.
  - now apply IH.
Qed.

Section FetchOrder.
Context `{Builtins}.

(** X7.  When the meta-reviews of a forum have pairwise distinct creation
    times, the decision does not depend on the order in which the replies
    are fetched. *)
Theorem get_decision_for_forum_order_independent (client client' : Client)
    (forum_id forum_id' : string) :
  Permutation (client forum_id) (client' forum_id') ->
  NoDup (map cdate_key (List.filter is_meta_candidate (client forum_id))) ->
  get_decision_for_forum client forum_id
  = get_decision_for_forum client' forum_id'.
Proof.
  intros Hperm Hnd. unfold get_decision_for_forum.
  apply (filter_Permutation_bool is_meta_candidate) in Hperm.
  set (M := List.filter is_meta_candidate (client forum_id)) in *.
  set (M' := List.filter is_meta_candidate (client' forum_id')) in *.
  destruct M as [|m0 ms] eqn:EM.
  { apply Permutation_nil in Hperm. now rewrite Hperm. }
  destruct M' as [|m0' ms'] eqn:EM'.
  { symmetry in Hperm. apply Permutation_nil in Hperm. discriminate. }
  rewrite <- EM, <- EM' in *.
  destruct (sorted_desc M) as [|m r] eqn:Es.
  { apply sorted_desc_nil in Es. congruence. }
  destruct (sorted_desc M') as [|m' r'] eqn:Es'.
  { apply sorted_desc_nil in Es'. congruence. }
  apply sorted_desc_head_max in Es as [Hin Hmax].
  apply sorted_desc_head_max in Es' as [Hin' Hmax'].
  assert (Hm'M : In m' M).
  { apply list_elem_of_In. rewrite Hperm. now apply list_elem_of_In. }
  assert (HmM' : In m M').
  { apply list_elem_of_In. rewrite <- Hperm. now apply list_elem_of_In. }
  assert (Heq : m = m').
  { apply (NoDup_key_inj M); auto.
    apply Z.le_antisymm; [now apply Hmax' | now apply Hmax]. }
  now rewrite Heq.
Qed.

End FetchOrder.

(** The two sample meta-reviews decide the same in either fetch order. *)
Lemma get_decision_for_forum_order_independent_witness :
  @get_decision_for_forum ascii_builtins
    (Samples.client_of [Samples.meta_at_100; Samples.meta_at_200]) "forum7"
  = @get_decision_for_forum ascii_builtins
      (Samples.client_of [Samples.meta_at_200; Samples.meta_at_100]) "forum7".
Proof.
  apply (@get_decision_for_forum_order_independent ascii_builtins).
  - apply perm_swap.
  - apply (bool_decide_unpack _). vm_compute. exact I.
Defined.

(** *** The scores the average is taken over *)

Section ScoresKept.
Context `{Builtins}.

Lemma spec_extract_rating (content : dict) (sc : Q) :
  spec_field_score content "rating" = Some sc ->
  spec_extract_score content score_fields = Some sc.
Proof.
  intros E. unfold score_fields. cbn [spec_extract_score]. now rewrite E.
Qed.

Lemma collected_sublist (started : bool) (reviews : list Note) :
  collected started reviews
  `sublist_of` omap (fun r => spec_extract_score (content_or_empty r) score_fields)
                    reviews.
Proof.
  revert started. induction reviews as [|r reviews IH]; intros started.
  - constructor.
  - cbn [collected omap list_omap]. destruct started.
    + destruct (spec_field_score (content_or_empty r) "rating") as [sc|] eqn:E.
      * rewrite (spec_extract_rating _ _ E). constructor. apply IH.
      * destruct (spec_extract_score (content_or_empty r) score_fields);
          [constructor|]; apply IH.
    + destruct (spec_extract_score (content_or_empty r) score_fields);
        [constructor|]; apply IH.
Qed.

Lemma collected_head (reviews : list Note) :
  head (collected false reviews)
  = head (omap (fun r => spec_extract_score (content_or_empty r) score_fields)
               reviews).
Proof.
  induction reviews as [|r reviews IH]; [reflexivity|].
  cbn [collected omap list_omap].
  destruct (spec_extract_score (content_or_empty r) score_fields);
    [reflexivity | exact IH].
Qed.

Lemma collected_length (started : bool) (reviews : list Note) :
  (List.length (collected started reviews) <= List.length reviews)%nat.
Proof.
  revert started. induction reviews as [|r reviews IH]; intros started.
  - reflexivity.
  - cbn [collected List.length]. destruct started.
    + destruct (spec_field_score _ _); cbn [List.length];
        specialize (IH true); lia.
    + destruct (spec_extract_score _ _); cbn [List.length];
        [specialize (IH true) | specialize (IH false)]; lia.
Qed.

(** X8.  The scores [average_review_score] averages are per-review scores,
    each counted once and in review order: the list is a sublist of the
    per-review scores, it starts with the same score, and it is no longer
    than the list of reviews.  Scores are dropped, never altered or
    repeated. *)
Theorem collect_scores_sublist (reviews : list Note) :
  collect_scores reviews
  `sublist_of` omap (fun r => spec_extract_score (content_or_empty r) score_fields)
                    reviews /\
  head (collect_scores reviews)
  = head (omap (fun r => spec_extract_score (content_or_empty r) score_fields)
               reviews) /\
  (List.length (collect_scores reviews) <= List.length reviews)%nat.
Proof.
  rewrite collect_scores_collected. split; [apply collected_sublist|].
  split; [apply collected_head | apply collected_length].
Qed.

(** *** The range of the averaged scores *)

Lemma spec_extract_score_field (content : dict) (keys : list string) (sc : Q) :
  spec_extract_score content keys = Some sc ->
  exists key, In key keys /\ spec_field_score content key = Some sc.
Proof.
  induction keys as [|k keys IH]; [discriminate|]. simpl.
  destruct (spec_field_score content k) as [sc'|] eqn:E.
  - intros [= <-]. exists k. auto.
  - intros Hs. destruct (IH Hs) as (key & Hin & Hk). exists key. auto.
Qed.

Lemma collected_in_range (lo hi : Q) (started : bool) (reviews : list Note) :
  Forall (fun r => forall key sc,
            In key score_fields ->
            spec_field_score (content_or_empty r) key = Some sc ->
            (lo <= sc /\ sc <= hi)%Q) reviews ->
  Forall (fun s => (lo <= s /\ s <= hi)%Q) (collected started reviews).
Proof.
  intros Hall. revert started.
  induction Hall as [|r reviews Hr _ IH]; intros started; [constructor|].
  cbn [collected]. destruct started.
  - destruct (spec_field_score (content_or_empty r) "rating") as [sc|] eqn:E;
      [constructor|]; try apply IH.
    apply (Hr "rating"); [now left | exact E].
  - destruct (spec_extract_score (content_or_empty r) score_fields) as [sc|] eqn:E;
      [constructor|]; try apply IH.
    apply spec_extract_score_field in E as (key & Hin & Hk).
    now apply (Hr key).
Qed.

(** X9.  Every score that enters the average lies in the range of the
    scores found in the reviews: when every score that a candidate field of
    a review parses to lies between [lo] and [hi], so does every score
    [average_review_score] averages. *)
Theorem collect_scores_within_range (lo hi : Q) (reviews : list Note) :
  Forall (fun r => forall key sc,
            In key score_fields ->
            spec_field_score (content_or_empty r) key = Some sc ->
            (lo <= sc /\ sc <= hi)%Q) reviews ->
  Forall (fun s => (lo <= s /\ s <= hi)%Q) (collect_scores reviews).
Proof.
  intros Hall. rewrite collect_scores_collected.
  now apply collected_in_range.
Qed.

End ScoresKept.

(** The scores averaged for two reviews rated 6 and 4 lie between 4 and
    6. *)
Lemma collect_scores_within_range_witness :
  Forall (fun s => (4 <= s /\ s <= 6)%Q)
         (@collect_scores ascii_builtins [Samples.rated_review; Samples.low_review]).
Proof.
  apply (@collect_scores_within_range ascii_builtins 4 6
           [Samples.rated_review; Samples.low_review]).
  constructor; [|constructor; [|constructor]]; intros key sc Hin;
    repeat (destruct Hin as [<- | Hin];
            [vm_compute; intros E; inversion E; split; discriminate|]);
    destruct Hin.
Defined.

(** *** Scores written as text *)

Lemma digit_val_nonneg (c : ascii) : is_digit c = true -> 0 <= digit_val c.
Proof.
  unfold is_digit, digit_val. intros Hd. apply andb_true_iff in Hd as [H1 _].
  apply N.leb_le in H1. lia.
Qed.

Lemma digits_to_Z_nonneg (acc : Z) (s : string) :
  0 <= acc -> all_chars is_digit s = true -> 0 <= digits_to_Z acc s.
Proof.
  revert acc. induction s as [|c s IH]; intros acc Hacc Hs; [exact Hacc|].
  simpl in Hs. apply andb_true_iff in Hs as [Hc Hs]. simpl.
  apply IH; [|exact Hs]. pose proof (digit_val_nonneg c Hc). lia.
Qed.

Lemma lstrip_leading (ws s : string) :
  all_chars is_space ws = true -> lstrip (ws ++ s) = lstrip s.
Proof.
  induction ws as [|c ws IH]; intros Hws; [reflexivity|].
  rewrite app_cons. simpl in *. apply andb_true_iff in Hws as [Hc Hws].
  rewrite Hc. auto.
Qed.

Section ScoreText.
Context `{Builtins}.

(** X10.  A score written as text is never negative; white space in front
    of it is ignored; and a text that starts with anything but white space
    or a digit (a sign, a point, a letter) has no score. *)
Theorem parse_numeric_score_text (s : string) :
  (forall q, parse_numeric_score (PyStr s) = Some q -> (0 <= q)%Q) /\
  (forall ws, all_chars is_space ws = true ->
              parse_numeric_score (PyStr (ws ++ s))
              = parse_numeric_score (PyStr s)) /\
  (head_is is_space s = false -> head_is is_digit s = false ->
   parse_numeric_score (PyStr s) = None).
Proof.
  split; [|split].
  - intros q. cbn [parse_numeric_score py_str].
    destruct (match_score s) as [[i f]|] eqn:E; [|discriminate].
    intros [= <-]. apply match_score_leading in E
      as (ws & rest & _ & _ & _ & Hi & Hf & _).
    unfold float_of_token. rewrite Qred_correct. unfold Qle. simpl.
    rewrite Z.mul_1_r. apply digits_to_Z_nonneg; [lia|].
    now rewrite all_chars_app, Hi, Hf.
  - intros ws Hws. cbn [parse_numeric_score py_str]. unfold match_score.
    now rewrite (lstrip_leading ws s Hws).
  - intros Hsp Hd. cbn [parse_numeric_score py_str]. unfold match_score.
    destruct s as [|c s]; [reflexivity|]. simpl in Hsp, Hd.
    cbn [lstrip]. rewrite Hsp. cbn [span_digits]. rewrite Hd. reflexivity.
Qed.

End ScoreText.

(** A score behind a minus sign is not read. *)
Lemma parse_numeric_score_text_witness :
  @parse_numeric_score ascii_builtins (PyStr "-3: Strong Reject") = None.
Proof.
  apply (proj2 (proj2 (@parse_numeric_score_text ascii_builtins
                         "-3: Strong Reject"))); reflexivity.
Defined.

(** *** The flagged papers *)

Lemma Sorted_le_NoDup_lt (l : list Z) :
  StronglySorted Z.le l -> NoDup l -> StronglySorted Z.lt l.
Proof.
  induction 1 as [|x l Hs IH Hall]; intros Hnd; [constructor|].
  apply NoDup_cons in Hnd as [Hx Hnd]. constructor; [now apply IH|].
  apply List.Forall_forall. intros y Hy.
  pose proof (proj1 (List.Forall_forall _ _) Hall y Hy) as Hle.
  assert (x <> y).
  { intros ->. apply Hx. now apply list_elem_of_In. }
  lia.
Qed.

Section Flagged.
Context `{Builtins}.

(** X11.  The flagged column is strictly ascending, and a paper number is
    in it exactly when some fetched submission with that number is flagged;
    a flagged submission has a decision that starts with accept in some
    casing. *)
Theorem flagged_column_exact (client : Client) (submissions : list Note) :
  StronglySorted Z.lt (flagged_column (snd (main_loop client submissions))) /\
  (forall p,
     In p (flagged_column (snd (main_loop client submissions))) <->
     exists sub, In sub submissions /\ paper_no_of sub = p /\
                 snd (process_submission client sub) = true) /\
  (forall sub,
     snd (process_submission client sub) = true ->
     starts_nocase "accept" (decision (fst (process_submission client sub)))).
Proof.
  split; [|split].
  - apply Sorted_le_NoDup_lt; [|apply flagged_column_NoDup].
    unfold flagged_column. apply StronglySorted_merge_sort; apply _.
  - intros p. rewrite flagged_column_In. unfold main_loop.
    rewrite main_loop_fold. cbn [snd app]. rewrite in_map_iff. split.
    + intros (sub & Hp & Hin). apply filter_In in Hin as [Hin Hf].
      exists sub. auto.
    + intros (sub & Hin & Hp & Hf). exists sub. split; [exact Hp|].
      apply filter_In. auto.
  - intros sub. unfold process_submission. cbn [fst snd decision].
    unfold classify_low_score_accept. intros Hf.
    apply andb_true_iff in Hf as [Ha _].
    apply (startswith_lower_nocase "accept"). exact Ha.
Qed.

End Flagged.

(** The sample submission is flagged: its decision starts with accept. *)
Lemma flagged_column_exact_witness :
  starts_nocase "accept"
    (decision (fst (@process_submission ascii_builtins
                      RunSamples.low_accept_client
                      RunSamples.low_accept_submission))).
Proof.
  apply (proj2 (proj2 (@flagged_column_exact ascii_builtins
                         RunSamples.low_accept_client
                         [RunSamples.low_accept_submission]))).
  reflexivity.
Defined.

(** *** The two forms of a field value *)

Lemma dict_get_wrap (content : dict) (k : string) :
  dict_get (wrap_content content) k = option_map wrap (dict_get content k).
Proof.
  induction content as [|[k' v] content IH]; [reflexivity|].
  cbn [wrap_content map dict_get fst snd]. fold (wrap_content content).
  destruct (String.eqb k' k); [reflexivity | exact IH].
Qed.

Lemma first_insensitive_wrap (content : dict) (key : string) :
  first_insensitive (wrap_content content) key
  = option_map wrap (first_insensitive content key).
Proof.
  induction content as [|[k' v] content IH]; [reflexivity|].
  cbn [wrap_content map first_insensitive fst snd]. fold (wrap_content content).
  destruct (String.eqb (norm_key k') (norm_key key)); [reflexivity | exact IH].
Qed.

Lemma dict_get_plain (content : dict) (k : string) (v : PyValue) :
  plain_content content -> dict_get content k = Some v -> is_dict v = false.
Proof.
  induction 1 as [|[k' v'] content Hv _ IH]; [discriminate|].
  cbn [dict_get]. destruct (String.eqb k' k); [|exact IH].
  intros [= <-]. exact Hv.
Qed.

Lemma first_insensitive_plain (content : dict) (key : string) (v : PyValue) :
  plain_content content -> first_insensitive content key = Some v ->
  is_dict v = false.
Proof.
  induction 1 as [|[k' v'] content Hv _ IH]; [discriminate|].
  cbn [first_insensitive]. destruct (String.eqb _ _); [|exact IH].
  intros [= <-]. exact Hv.
Qed.

Lemma unwrap_plain (v : PyValue) : is_dict v = false -> unwrap v = v.
Proof. destruct v; try reflexivity. discriminate. Qed.

Lemma decision_value_plain (v : PyValue) :
  is_dict v = false -> decision_value v = v.
Proof. destruct v; try reflexivity. discriminate. Qed.

Section Wrapped.
Context `{Builtins}.

Lemma try_candidates_wrap (content : dict) (key : string) (scores : list Q) :
  plain_content content ->
  try_candidates (candidates (wrap_content content) key) scores
  = try_candidates (candidates content key) scores.
Proof.
  intros Hp. unfold candidates.
  rewrite dict_get_wrap, first_insensitive_wrap.
  destruct (dict_get content key) as [v|] eqn:Ev; cbn [option_map].
  - cbn [try_candidates].
    now rewrite (unwrap_plain v (dict_get_plain _ _ _ Hp Ev)).
  - destruct (first_insensitive content key) as [v|] eqn:Ef; cbn [option_map].
    + cbn [try_candidates].
      now rewrite (unwrap_plain v (first_insensitive_plain _ _ _ Hp Ef)).
    + reflexivity.
Qed.

Lemma scan_fields_wrap (content : dict) (keys : list string) (scores : list Q) :
  plain_content content ->
  scan_fields (wrap_content content) keys scores
  = scan_fields content keys scores.
Proof.
  intros Hp. revert scores. induction keys as [|k keys IH]; intros scores.
  - reflexivity.
  - cbn [scan_fields]. rewrite (try_candidates_wrap content k scores Hp).
    destruct (try_candidates (candidates content k) scores); [apply IH|].
    reflexivity.
Qed.

Lemma decision_of_content_wrap (content : dict) (keys : list string) :
  plain_content content ->
  decision_of_content (wrap_content content) keys
  = decision_of_content content keys.
Proof.
  intros Hp. induction keys as [|k keys IH]; [reflexivity|].
  cbn [decision_of_content]. rewrite dict_get_wrap.
  destruct (dict_get content k) as [v|] eqn:Ev; cbn [option_map]; [|exact IH].
  now rewrite (decision_value_plain v (dict_get_plain _ _ _ Hp Ev)).
Qed.

(** X12.  The wrapped form [{value: v}] of the field values reads like the
    plain form: for notes whose field values are not mappings, wrapping
    every value changes neither the average review score nor the decision
    text of a meta-review. *)
Theorem wrapped_values_read_like_plain (reviews : list Note) (meta : Note) :
  Forall (fun r => plain_content (content_or_empty r)) reviews ->
  plain_content (content_or_empty meta) ->
  average_review_score (map wrap_note reviews) = average_review_score reviews /\
  decision_of_content (content_or_empty (wrap_note meta)) decision_fields
  = decision_of_content (content_or_empty meta) decision_fields.
Proof.
  intros Hall Hmeta. split.
  - unfold average_review_score, collect_scores.
    assert (E : forall scores,
              fold_left
                (fun scores r =>
                   scan_fields (content_or_empty r) score_fields scores)
                (map wrap_note reviews) scores
              = fold_left
                  (fun scores r =>
                     scan_fields (content_or_empty r) score_fields scores)
                  reviews scores).
    { induction Hall as [|r reviews Hr _ IH]; intros scores; [reflexivity|].
      cbn [map fold_left]. rewrite IH. f_equal.
      apply (scan_fields_wrap _ _ _ Hr). }
    now rewrite E.
  - apply (decision_of_content_wrap _ _ Hmeta).
Qed.

End Wrapped.

(** The sample reviews average 5 in the wrapped form too. *)
Lemma wrapped_values_read_like_plain_witness :
  @average_review_score ascii_builtins
    (map wrap_note [Samples.rated_review; Samples.low_review])
  = @average_review_score ascii_builtins [Samples.rated_review; Samples.low_review].
Proof.
  apply (@wrapped_values_read_like_plain ascii_builtins
           [Samples.rated_review; Samples.low_review] Samples.meta_at_200);
    repeat constructor.
Defined.

End MakeDecisionMore.

(** ** extract_accepted_papers.py: the records *)
Module AcceptedPapersMore.
Import PyString PyStringFacts MakeDecision AcceptedPapers AcceptedPapersNotes.

(** *** White space around the venue tag *)

Lemma space_lower (c : ascii) : is_space c = true -> lower_char c = c.
Proof.
  destruct c as [[] [] [] [] [] [] [] []]; try reflexivity; discriminate.
Qed.

Lemma lower_spaces (w : string) : all_chars is_space w = true -> lower w = w.
Proof.
  induction w as [|c w IH]; [reflexivity|]. simpl. intros Hw.
  apply andb_true_iff in Hw as [Hc Hw]. now rewrite (space_lower c Hc), IH.
Qed.

Lemma eqb_space_other (a c : ascii) :
  is_space a = false -> is_space c = true -> Ascii.eqb a c = false.
Proof.
  intros Ha Hc. destruct (Ascii.eqb_spec a c) as [->|]; [congruence|reflexivity].
Qed.

(** A needle without white space is not found any earlier or later for
    white space put around the text. *)
Lemma startswith_spaces_after (sub s w : string) :
  all_chars (fun c => negb (is_space c)) sub = true ->
  all_chars is_space w = true ->
  startswith sub (s ++ w) = startswith sub s.
Proof.
  revert s. induction sub as [|a sub IH]; intros s Hsub Hw; [reflexivity|].
  simpl in Hsub. apply andb_true_iff in Hsub as [Ha Hsub].
  apply negb_true_iff in Ha. destruct s as [|b s].
  - rewrite app_nil_l. destruct w as [|c w]; [reflexivity|].
    simpl in Hw. apply andb_true_iff in Hw as [Hc _].
    simpl. now rewrite (eqb_space_other a c Ha Hc).
  - rewrite app_cons. simpl. destruct (Ascii.eqb a b); [|reflexivity].
    now apply IH.
Qed.

Lemma contains_spaces_before (a : ascii) (sub w t : string) :
  is_space a = false -> all_chars is_space w = true ->
  contains (String a sub) (w ++ t) = contains (String a sub) t.
Proof.
  intros Ha. induction w as [|c w IH]; intros Hw; [reflexivity|].
  simpl in Hw. apply andb_true_iff in Hw as [Hc Hw].
  rewrite app_cons. cbn [contains startswith].
  rewrite (eqb_space_other a c Ha Hc). cbn [orb]. now apply IH.
Qed.

Lemma contains_spaces_after (a : ascii) (sub t w : string) :
  all_chars (fun c => negb (is_space c)) (String a sub) = true ->
  all_chars is_space w = true ->
  contains (String a sub) (t ++ w) = contains (String a sub) t.
Proof.
  intros Hsub Hw.
  assert (Ha : is_space a = false).
  { simpl in Hsub. apply andb_true_iff in Hsub as [Ha _].
    now apply negb_true_iff in Ha. }
  induction t as [|b t IH].
  - rewrite app_nil_l.
    rewrite <- (app_nil_r_str w), (contains_spaces_before a sub w "" Ha Hw).
    reflexivity.
  - rewrite app_cons.
    change (contains (String a sub) (String b (t ++ w)))
      with (startswith (String a sub) (String b (t ++ w))
            || contains (String a sub) (t ++ w)).
    change (contains (String a sub) (String b t))
      with (startswith (String a sub) (String b t)
            || contains (String a sub) t).
    rewrite IH. f_equal.
    rewrite <- app_cons. now apply startswith_spaces_after.
Qed.

Lemma contains_lower_strip (a : ascii) (sub v : string) :
  all_chars (fun c => negb (is_space c)) (String a sub) = true ->
  contains (String a sub) (lower (strip v)) = contains (String a sub) (lower v).
Proof.
  intros Hsub.
  destruct (strip_spec v) as (w1 & w2 & Hv & Hw1 & Hw2 & _).
  rewrite Hv at 2. rewrite !lower_app, (lower_spaces w1 Hw1), (lower_spaces w2 Hw2).
  rewrite contains_spaces_before; [|simpl in Hsub; apply andb_true_iff in Hsub as [Ha _]; now apply negb_true_iff in Ha | exact Hw1].
  now rewrite contains_spaces_after.
Qed.

(** X13.  White space around the venue tag never changes the presentation
    type, so the [strip] of [get_venue_field] cannot move a paper to another
    type. *)
Theorem presentation_type_ignores_padding (venue : string) :
  presentation_type (strip venue) = presentation_type venue.
Proof.
  unfold presentation_type. cbv zeta.
  now rewrite (contains_lower_strip "o" "ral" venue),
              (contains_lower_strip "p" "oster" venue).
Qed.

(** *** The records and the counts *)

Lemma presentation_type_cases (venue : string) :
  presentation_type venue = "Oral" \/ presentation_type venue = "Poster"
  \/ presentation_type venue = "".
Proof.
  unfold presentation_type. cbv zeta.
  destruct (contains "oral" (lower venue)); [auto|].
  destruct (contains "poster" (lower venue)); auto.
Qed.

Lemma count_types_partition (papers : list Paper) :
  Forall (fun p => presentation_type_of p = "Oral"
                   \/ presentation_type_of p = "Poster"
                   \/ presentation_type_of p = "") papers ->
  (count_type "Oral" papers + count_type "Poster" papers + count_type "" papers
   = List.length papers)%nat.
Proof.
  unfold count_type. induction 1 as [|p papers Hp _ IH]; [reflexivity|].
  cbn [List.filter List.length].
  destruct Hp as [-> | [-> | ->]]; cbn [String.eqb Ascii.eqb Bool.eqb List.length];
    lia.
Qed.

Lemma strip_is_trimmed (s : string) : is_trimmed (strip s) = true.
Proof. destruct (strip_spec s) as (_ & _ & _ & _ & _ & Ht). exact Ht. Qed.

Section Records.
Context `{Builtins}.

(** X14.  [main] writes nothing exactly when no note was fetched; otherwise
    it writes one record per note, in fetch order, and the printed Oral and
    Poster counts together with the number of records of blank type add up
    to the number of notes. *)
Theorem main_records_and_counts (venue_notes : list Note) :
  match main venue_notes with
  | None => venue_notes = []
  | Some (papers, oral_count, poster_count) =>
      venue_notes <> [] /\
      papers = map paper_of_note venue_notes /\
      (oral_count + poster_count + count_type "" papers
       = List.length venue_notes)%nat
  end.
Proof.
  unfold main. destruct venue_notes as [|n notes]; [reflexivity|].
  cbn [map]. split; [discriminate|]. split; [reflexivity|].
  change (paper_of_note n :: map paper_of_note notes)
    with (map paper_of_note (n :: notes)).
  rewrite count_types_partition.
  - apply length_map.
  - apply List.Forall_forall. intros p Hp.
    apply in_map_iff in Hp as (note & <- & _).
    apply presentation_type_cases.
Qed.

(** X15.  The title and the venue field of a record never start or end
    with white space; a note without a title, without authors or without a
    venue gives the empty text for it, and a note without a venue the blank
    presentation type. *)
Theorem paper_of_note_fields (note : Note) :
  is_trimmed (title (paper_of_note note)) = true /\
  is_trimmed (get_venue_field note) = true /\
  (dict_get (content_or_empty note) "title" = None ->
   title (paper_of_note note) = "") /\
  (dict_get (content_or_empty note) "authors" = None ->
   authors (paper_of_note note) = "") /\
  (dict_get (content_or_empty note) "venue" = None ->
   get_venue_field note = ""
   /\ presentation_type_of (paper_of_note note) = "").
Proof.
  cbn [paper_of_note title authors presentation_type_of].
  unfold get_title, get_authors, get_venue_field. cbv zeta.
  split; [|split; [|split; [|split]]].
  - apply strip_is_trimmed.
  - apply strip_is_trimmed.
  - intros ->. reflexivity.
  - intros ->. reflexivity.
  - intros ->. split; reflexivity.
Qed.

End Records.

Lemma occurs_join (sep x : string) (l : list string) :
  In x l -> occurs x (join sep l).
Proof.
  induction l as [|y l IH]; [contradiction|]. intros [-> | Hin].
  - destruct l as [|z l].
    + exists "", "". cbn [join]. now rewrite app_nil_l, app_nil_r_str.
    + exists "", (sep ++ join sep (z :: l)). reflexivity.
  - destruct l as [|z l]; [contradiction|].
    destruct (IH Hin) as (pre & post & E).
    exists (y ++ sep ++ pre), post.
    change (join sep (y :: z :: l)) with (y ++ sep ++ join sep (z :: l)).
    rewrite E. now rewrite !app_assoc_str.
Qed.

Section Authors.
Context `{Builtins}.

(** X19.  No author is lost: when the authors field is a list, plain or in
    the wrapped form, the text of every author occurs in the authors column
    of the record; a single author is the whole column. *)
Theorem get_authors_keeps_every_author (note : Note) (l : list PyValue) :
  dict_get (content_or_empty note) "authors" = Some (PyList l)
  \/ dict_get (content_or_empty note) "authors"
     = Some (PyDict [("value", PyList l)]) ->
  (forall a, In a l -> occurs (py_str a) (get_authors note)) /\
  (forall a, l = [a] -> get_authors note = py_str a).
Proof.
  intros Hl.
  assert (E : get_authors note = join ", " (map py_str l)).
  { unfold get_authors. cbv zeta. destruct Hl as [-> | ->]; reflexivity. }
  rewrite E. split.
  - intros a Ha. apply occurs_join. now apply in_map.
  - intros a ->. reflexivity.
Qed.

End Authors.

(** Both authors of the sample note are in its authors column. *)
Lemma get_authors_keeps_every_author_witness :
  occurs "Alan Turing" (@get_authors ascii_builtins RunSamples.two_author_note).
Proof.
  apply (proj1 (@get_authors_keeps_every_author ascii_builtins
                  RunSamples.two_author_note
                  [PyStr "Ada Lovelace"; PyStr "Alan Turing"]
                  (or_intror eq_refl))
               (PyStr "Alan Turing")).
  right. left. reflexivity.
Defined.

(** A submission note of the samples has a title but no venue: its record
    has the blank presentation type. *)
Lemma paper_of_note_fields_witness :
  @get_venue_field ascii_builtins (Samples.numbered "a" 3) = "" /\
  presentation_type_of (@paper_of_note ascii_builtins (Samples.numbered "a" 3))
  = "".
Proof.
  apply (proj2 (proj2 (proj2 (proj2
           (@paper_of_note_fields ascii_builtins (Samples.numbered "a" 3)))))).
  reflexivity.
Defined.

End AcceptedPapersMore.

(** ** extract_author_ids.py: the run *)
Module AuthorIdsMore.
Import PyString PyStringFacts AuthorIds AuthorIdsRun AuthorIdsProofs.

#[local] Set Warnings "-clear-no-such-hyp".

(** *** Members that are profile ids already *)

Lemma filter_all_true {A : Type} (f : A -> bool) (l : list A) :
  Forall (fun x => f x = true) l -> List.filter f l = l.
Proof.
  induction 1 as [|x l Hx _ IH]; [reflexivity|]. simpl. now rewrite Hx, IH.
Qed.

Lemma filter_all_false {A : Type} (f : A -> bool) (l : list A) :
  Forall (fun x => f x = true) l -> List.filter (fun x => negb (f x)) l = [].
Proof.
  induction 1 as [|x l Hx _ IH]; [reflexivity|]. simpl. now rewrite Hx.
Qed.

(** X16.  When every member already looks like a profile id, the result is
    the set of the members and the lookup is not consulted: any lookup
    gives the same set, and one that would raise does not get to. *)
Theorem resolve_without_unknowns (members : list string) :
  Forall (fun m => tilde_match m = true) members ->
  (forall get_profiles : ProfileLookup,
     resolve_to_profile_ids members get_profiles = list_to_set members) /\
  (forall client : Client,
     resolve_or_raise members client = inr (list_to_set members)).
Proof.
  intros Hall.
  assert (Hres : forall get_profiles : ProfileLookup,
            resolve_to_profile_ids members get_profiles = list_to_set members).
  { intros lk. rewrite resolve_union. unfold unknown_members.
    rewrite (filter_all_false tilde_match members Hall),
            (filter_all_true tilde_match members Hall).
    set_solver. }
  split; [exact Hres|].
  intros client. unfold resolve_or_raise. rewrite unknowns_filter.
  unfold unknown_members. rewrite (filter_all_false tilde_match members Hall).
  now rewrite Hres.
Qed.

(** All members of the sample list are profile ids. *)
Lemma resolve_without_unknowns_witness :
  resolve_to_profile_ids ["~Jane_Doe1"; "~Joe_Roe1"] Samples.lookup_first
  = list_to_set ["~Jane_Doe1"; "~Joe_Roe1"].
Proof.
  apply (proj1 (resolve_without_unknowns ["~Jane_Doe1"; "~Joe_Roe1"]
                  ltac:(repeat constructor))).
Defined.

(** *** Groups that cannot be loaded *)

Lemma groups_fold (client : Client) (author_groups : list string)
    (all_ids : gset string) (missing : list (string * string)) :
  let result :=
    fold_left
      (fun (acc : gset string * list (string * string)) gid =>
         let '(all_profile_ids, missing_groups) := acc in
         match load_group client gid with
         | inr ids => (all_profile_ids ∪ ids, missing_groups)
         | inl e => (all_profile_ids, (missing_groups ++ [(gid, e)])%list)
         end)
      author_groups (all_ids, missing) in
  (forall i, i ∈ fst result <->
             i ∈ all_ids \/
             exists gid ids, In gid author_groups /\
                             load_group client gid = inr ids /\ i ∈ ids) /\
  snd result
  = (missing ++
     flat_map (fun gid => match load_group client gid with
                          | inl e => [(gid, e)]
                          | inr _ => []
                          end) author_groups)%list.
Proof.
  revert all_ids missing.
  induction author_groups as [|gid groups IH]; intros all_ids missing.
  - cbn. split; [|now rewrite List.app_nil_r].
    intros i. split; [auto|]. intros [Hi | (g & ids & [] & _)]. exact Hi.
  - cbn [fold_left flat_map].
    destruct (load_group client gid) as [e|ids] eqn:E.
    + destruct (IH all_ids (missing ++ [(gid, e)])%list) as [Hin Hmiss].
      split.
      * intros i. rewrite Hin. split.
        -- intros [Hi | (g & s & Hg & Hl & Hs)]; [auto|].
           right. exists g, s. split; [now right | auto].
        -- intros [Hi | (g & s & [<- | Hg] & Hl & Hs)]; [auto | congruence |].
           right. exists g, s. auto.
      * rewrite Hmiss. now rewrite <- List.app_assoc.
    + destruct (IH (all_ids ∪ ids) missing) as [Hin Hmiss].
      split.
      * intros i. rewrite Hin, elem_of_union. split.
        -- intros [[Hi | Hi] | (g & s & Hg & Hl & Hs)]; [auto | |].
           ++ right. exists gid, ids. split; [now left | auto].
           ++ right. exists g, s. split; [now right | auto].
        -- intros [Hi | (g & s & [<- | Hg] & Hl & Hs)]; [auto | |].
           ++ left. right. congruence.
           ++ right. exists g, s. auto.
      * exact Hmiss.
Qed.

(** X17.  A group that cannot be loaded, or whose members cannot be looked
    up, is recorded in [missing_groups] and costs nothing else: the profile
    ids are exactly those of the groups that did load, and [missing_groups]
    lists exactly the groups that did not, in their order, each with its
    error text. *)
Theorem groups_loop_skips_failed_groups (client : Client)
    (author_groups : list string) :
  (forall i, i ∈ fst (groups_loop client author_groups) <->
             exists gid ids, In gid author_groups /\
                             load_group client gid = inr ids /\ i ∈ ids) /\
  snd (groups_loop client author_groups)
  = flat_map (fun gid => match load_group client gid with
                         | inl e => [(gid, e)]
                         | inr _ => []
                         end) author_groups.
Proof.
  destruct (groups_fold client author_groups ∅ []) as [Hin Hmiss].
  split; [|exact Hmiss].
  intros i. unfold groups_loop. rewrite Hin. split; [|auto].
  intros [Hi | Hex]; [|exact Hex]. now apply not_elem_of_empty in Hi.
Qed.

(** *** The dictionary of submission counts *)

Lemma counter_fold (client : Client) (pids : list string)
    (counter : gmap string nat) (pid : string) :
  fold_left
    (fun (counter : gmap string nat) pid =>
       let n_subs := count_submissions pid client in
       if (0 <=? n_subs)%nat then <[pid := n_subs]> counter else counter)
    pids counter !! pid
  = if decide (pid ∈ pids) then Some (count_submissions pid client)
    else counter !! pid.
Proof.
  revert counter. induction pids as [|x pids IH]; intros counter.
  - cbn. now rewrite decide_False by apply not_elem_of_nil.
  - cbn [fold_left]. cbv zeta. cbn [Nat.leb]. rewrite IH.
    destruct (decide (pid ∈ pids)) as [Hin|Hnin].
    + now rewrite decide_True by (now right).
    + destruct (decide (pid = x)) as [->|Hne].
      * rewrite decide_True by left. apply lookup_insert_eq.
      * rewrite decide_False.
        -- now apply lookup_insert_ne.
        -- rewrite elem_of_cons. intros [? | ?]; contradiction.
Qed.

(** X18.  The dictionary written by [main] has an entry for every resolved
    profile id and for nothing else, and the entry holds the number of the
    notes of that id, also when it is 0: the test [n_subs >= 0] filters
    nothing out. *)
Theorem main_counts_every_profile (client : Client) (author_groups : list string)
    (pid : string) (n : nat) :
  main client author_groups !! pid = Some n <->
  pid ∈ fst (groups_loop client author_groups) /\
  n = List.length (get_all_notes client pid).
Proof.
  unfold main, submissions_counter. rewrite counter_fold.
  rewrite lookup_empty.
  destruct (decide (pid ∈ merge_sort String.le
                            (elements (groups_loop client author_groups).1)))
    as [Hin|Hnin].
  - rewrite merge_sort_Permutation, elem_of_elements in Hin.
    unfold count_submissions. split.
    + intros [= <-]. auto.
    + intros [_ ->]. reflexivity.
  - rewrite merge_sort_Permutation, elem_of_elements in Hnin.
    split; [discriminate | intros [Hin _]; contradiction].
Qed.

End AuthorIdsMore.
